(** * CheckMyPaper: the paper lifecycle over the Supabase store

    A shallow embedding of the lifecycle code of the repository:

    - the tables, constraints and row-level-security policies of the
      migration (the SQL script);
    - the row types of [lib/supabase.ts];
    - the handlers of [TutorDashboard] ([loadPapers], [handleAccept],
      [handleReject]), [AnnotationEditor] ([handleSubmit]),
      [LearnerDashboard] ([loadPapers], [uploadFile], [handleUpload]) and
      [Navbar] ([loadNotifications], [markAsRead]);
    - the role dispatch of [AppContent] and the buttons each dashboard
      renders for a paper.

    The database is an explicit [Store]; every handler is a function from
    the store to an [Outcome] and a new store.  What the surroundings
    answer during one handler call (the clocks, the uuid the database
    draws, the storage bucket) is an explicit [Env]. *)

From Stdlib Require Import List String Ascii ZArith NArith Bool Lia.
From Stdlib Require Import DecimalString.
From Stdlib Require Import Sorted Permutation.
From Stdlib Require Import DecimalPos DecimalN.
Import ListNotations.

Local Open Scope string_scope.
Local Open Scope bool_scope.

(** ** Row types ([lib/supabase.ts] and the [CREATE TABLE] statements) *)

Inductive UserRole : Type := learner | tutor.

Inductive PaperStatus : Type := pending | accepted | checked | rejected.

Definition UserRole_eqb (a b : UserRole) : bool :=
  match a, b with
  | learner, learner | tutor, tutor => true
  | _, _ => false
  end.

Definition PaperStatus_eqb (a b : PaperStatus) : bool :=
  match a, b with
  | pending, pending | accepted, accepted
  | checked, checked | rejected, rejected => true
  | _, _ => false
  end.

(** A [timestamptz] is an instant, counted in milliseconds as [Date.now()]
    does; the ISO text the client reads and writes is its rendering. *)
Definition Timestamp : Type := N.

Module Profile.
Record t : Type := mk {
  id : string;
  email : string;
  full_name : string;
  role : UserRole;
  class_info : option string;
  subject_info : option string;
  created_at : Timestamp;
  updated_at : Timestamp
}.
End Profile.

Module Paper.
Record t : Type := mk {
  id : string;
  learner_id : string;
  tutor_id : option string;
  title : string;
  answer_sheet_url : string;
  question_paper_url : option string;
  checked_sheet_url : option string;
  status : PaperStatus;
  marks : option Z;
  grade : option string;
  feedback : option string;
  created_at : Timestamp;
  updated_at : Timestamp
}.
End Paper.

Module Notification.
Record t : Type := mk {
  id : string;
  user_id : string;
  paper_id : option string;
  message : string;
  is_read : bool;
  created_at : Timestamp
}.
End Notification.

(** ** The store: the three tables *)

Record Store : Type := mkStore {
  profiles : list Profile.t;
  papers : list Paper.t;
  notifications : list Notification.t
}.

(** SQL's [column = value] on a nullable column: NULL never compares equal. *)
Definition eq_uid (column : option string) (uid : string) : bool :=
  match column with
  | Some v => v =? uid
  | None => false
  end.

Definition is_null {A : Type} (column : option A) : bool :=
  match column with
  | Some _ => false
  | None => true
  end.

(** What PostgREST answers to a write. *)
Inductive PgError : Type :=
  | rls_violation        (* new row violates row-level security policy *)
  | foreign_key_violation
  | unique_violation
  | numeric_out_of_range.

Inductive DbResult : Type :=
  | DbOk (st : Store)
  | DbError (e : PgError).

(** ** Row-level security (the [CREATE POLICY] statements)

    Every policy is [TO authenticated]; [uid] is [auth.uid()].  Policies on
    one table and command are permissive, so they are joined by OR. *)

(** [EXISTS (SELECT 1 FROM profiles WHERE profiles.id = auth.uid()
    AND profiles.role = 'tutor')]. *)
Definition exists_tutor_profile (st : Store) (uid : string) : bool :=
  existsb (fun pr => (Profile.id pr =? uid) && UserRole_eqb (Profile.role pr) tutor)
          (profiles st).

(** "Learners can view own papers". *)
Definition learners_can_view_own_papers (uid : string) (p : Paper.t) : bool :=
  Paper.learner_id p =? uid.

(** "Tutors can view all pending papers": the USING clause holds the role
    test only. *)
Definition tutors_can_view_all_pending_papers
    (st : Store) (uid : string) (p : Paper.t) : bool :=
  exists_tutor_profile st uid.

Definition papers_select (st : Store) (uid : string) (p : Paper.t) : bool :=
  learners_can_view_own_papers uid p || tutors_can_view_all_pending_papers st uid p.

(** "Learners can insert own papers". *)
Definition papers_insert_check (uid : string) (p : Paper.t) : bool :=
  Paper.learner_id p =? uid.

(** "Learners can update own papers": USING and WITH CHECK are the same. *)
Definition learners_can_update_own_papers (uid : string) (p : Paper.t) : bool :=
  Paper.learner_id p =? uid.

(** "Tutors can update assigned papers", USING. *)
Definition tutors_can_update_assigned_papers_using
    (st : Store) (uid : string) (p : Paper.t) : bool :=
  eq_uid (Paper.tutor_id p) uid
  || (is_null (Paper.tutor_id p)
      && PaperStatus_eqb (Paper.status p) pending
      && exists_tutor_profile st uid).

(** "Tutors can update assigned papers", WITH CHECK. *)
Definition tutors_can_update_assigned_papers_check
    (st : Store) (uid : string) (p : Paper.t) : bool :=
  eq_uid (Paper.tutor_id p) uid
  || (eq_uid (Paper.tutor_id p) uid && exists_tutor_profile st uid).

Definition papers_update_using (st : Store) (uid : string) (p : Paper.t) : bool :=
  learners_can_update_own_papers uid p
  || tutors_can_update_assigned_papers_using st uid p.

Definition papers_update_check (st : Store) (uid : string) (p : Paper.t) : bool :=
  learners_can_update_own_papers uid p
  || tutors_can_update_assigned_papers_check st uid p.

(** "Users can view own notifications", "Users can update own
    notifications" (USING and WITH CHECK), and "Users can insert
    notifications" (WITH CHECK (true)). *)
Definition notifications_select (uid : string) (n : Notification.t) : bool :=
  Notification.user_id n =? uid.

Definition notifications_update (uid : string) (n : Notification.t) : bool :=
  Notification.user_id n =? uid.

Definition notifications_insert_check (uid : string) (n : Notification.t) : bool :=
  true.

(** ** Constraints of the tables *)

Definition profile_exists (st : Store) (uid : string) : bool :=
  existsb (fun pr => Profile.id pr =? uid) (profiles st).

Definition paper_exists (st : Store) (pid : string) : bool :=
  existsb (fun p => Paper.id p =? pid) (papers st).

Definition notification_exists (st : Store) (nid : string) : bool :=
  existsb (fun n => Notification.id n =? nid) (notifications st).

(** Nullable [REFERENCES]: NULL refers to nothing and is accepted. *)
Definition references {A : Type} (exists_in : A -> bool) (column : option A) : bool :=
  match column with
  | Some v => exists_in v
  | None => true
  end.

(** The foreign keys of a [papers] row. *)
Definition paper_foreign_keys (st : Store) (p : Paper.t) : bool :=
  profile_exists st (Paper.learner_id p)
  && references (profile_exists st) (Paper.tutor_id p).

(** [integer] is 32 bits wide. *)
Definition fits_integer (z : Z) : bool :=
  ((-2147483648 <=? z) && (z <=? 2147483647))%Z.

(** ** Statements the client sends through supabase-js *)

(** The object handed to [.update({...})]: a key that is absent leaves its
    column alone. *)
Record PaperPatch : Type := mkPatch {
  set_tutor_id : option (option string);
  set_status : option PaperStatus;
  set_checked_sheet_url : option (option string);
  set_marks : option (option Z);
  set_grade : option (option string);
  set_feedback : option (option string);
  set_updated_at : option Timestamp
}.

Definition override {A : Type} (key : option A) (column : A) : A :=
  match key with
  | Some v => v
  | None => column
  end.

Definition apply_patch (u : PaperPatch) (p : Paper.t) : Paper.t :=
  Paper.mk (Paper.id p)
           (Paper.learner_id p)
           (override (set_tutor_id u) (Paper.tutor_id p))
           (Paper.title p)
           (Paper.answer_sheet_url p)
           (Paper.question_paper_url p)
           (override (set_checked_sheet_url u) (Paper.checked_sheet_url p))
           (override (set_status u) (Paper.status p))
           (override (set_marks u) (Paper.marks p))
           (override (set_grade u) (Paper.grade p))
           (override (set_feedback u) (Paper.feedback p))
           (Paper.created_at p)
           (override (set_updated_at u) (Paper.updated_at p)).

(** The body fits the column types.  The values are cast when they are
    assigned to a row, so a body that does not fit is an error of a
    statement that reaches a row, and of no other. *)
Definition patch_fits (u : PaperPatch) : bool :=
  match set_marks u with
  | Some (Some z) => fits_integer z
  | _ => true
  end.

(** The rows [UPDATE papers ... WHERE id = pid] reaches: the WHERE clause
    reads the row, so the SELECT policies apply besides the UPDATE ones. *)
Definition update_target (st : Store) (uid pid : string) (p : Paper.t) : bool :=
  (Paper.id p =? pid) && papers_select st uid p && papers_update_using st uid p.

Definition new_row_allowed (st : Store) (uid : string) (p : Paper.t) : bool :=
  papers_select st uid p && papers_update_check st uid p.

Definition patch_rows (st : Store) (uid pid : string) (u : PaperPatch) : list Paper.t :=
  map (fun p => if update_target st uid pid p then apply_patch u p else p) (papers st).

(** [supabase.from('papers').update(u).eq('id', pid)].  A statement that
    reaches no row is no error; one new row refused aborts the statement. *)
Definition update_papers (st : Store) (uid : string) (u : PaperPatch) (pid : string)
  : DbResult :=
  if negb (patch_fits u) && existsb (update_target st uid pid) (papers st)
  then DbError numeric_out_of_range
  else
    let new_rows := map (apply_patch u) (filter (update_target st uid pid) (papers st)) in
    if negb (forallb (new_row_allowed st uid) new_rows) then DbError rls_violation
    else if negb (forallb (paper_foreign_keys st) new_rows)
         then DbError foreign_key_violation
         else DbOk (mkStore (profiles st) (patch_rows st uid pid u) (notifications st)).

(** [supabase.from('papers').insert(p)]. *)
Definition insert_paper (st : Store) (uid : string) (p : Paper.t) : DbResult :=
  if negb (papers_insert_check uid p) then DbError rls_violation
  else if paper_exists st (Paper.id p) then DbError unique_violation
  else if negb (paper_foreign_keys st p) then DbError foreign_key_violation
  else DbOk (mkStore (profiles st) (papers st ++ [p]) (notifications st)).

(** [supabase.from('notifications').insert(n)]. *)
Definition insert_notification (st : Store) (uid : string) (n : Notification.t)
  : DbResult :=
  if negb (notifications_insert_check uid n) then DbError rls_violation
  else if notification_exists st (Notification.id n) then DbError unique_violation
  else if negb (profile_exists st (Notification.user_id n)
                && references (paper_exists st) (Notification.paper_id n))
       then DbError foreign_key_violation
       else DbOk (mkStore (profiles st) (papers st) (notifications st ++ [n])).

Definition set_is_read (n : Notification.t) : Notification.t :=
  Notification.mk (Notification.id n) (Notification.user_id n)
                  (Notification.paper_id n) (Notification.message n)
                  true (Notification.created_at n).

Definition notification_target (uid nid : string) (n : Notification.t) : bool :=
  (Notification.id n =? nid) && notifications_select uid n && notifications_update uid n.

(** [supabase.from('notifications').update({ is_read: true }).eq('id', nid)]. *)
Definition update_notifications_is_read (st : Store) (uid nid : string) : DbResult :=
  let new_rows := map set_is_read (filter (notification_target uid nid) (notifications st)) in
  if negb (forallb (fun n => notifications_select uid n && notifications_update uid n)
                   new_rows)
  then DbError rls_violation
  else DbOk (mkStore (profiles st) (papers st)
               (map (fun n => if notification_target uid nid n then set_is_read n else n)
                    (notifications st))).

(** ** What the surroundings answer during one handler call *)

Record Env : Type := mkEnv {
  Date_now : N;                 (* the browser's clock: Date.now(), new Date() *)
  db_now : Timestamp;           (* now() of the database, for column defaults *)
  gen_random_uuid : string;     (* the id the database draws for a new row *)
  storage_upload : string -> string -> option string;
                                (* bucket 'papers': upload(path, bytes, upsert)
                                   answers the stored path, or an error *)
  getPublicUrl : string -> string
}.

Record File : Type := mkFile {
  name : string;
  bytes : string
}.

(** [canvasRef.current], and what [toBlob] hands to its callback. *)
Inductive Canvas : Type :=
  | NoCanvas
  | NullBlob
  | Blob (png : string).

Inductive Failure : Type :=
  | PgFailure (e : PgError)
  | StorageFailure
  | CanvasNotFound
  | FailedToCreateBlob.

Inductive AlertText : Type :=
  | ErrorAcceptingPaper (f : Failure)
  | ErrorRejectingPaper (f : Failure)
  | PleaseFillInMarksAndGrade
  | ErrorSaving (f : Failure)
  | PaperCheckedSuccessfully
  | UploadFailed (f : Failure).

(** How a handler ends: it returns quietly, it shows an alert, or (inside
    the [toBlob] callback, beyond the reach of the handler's [catch]) an
    error escapes. *)
Inductive Outcome : Type :=
  | Returned
  | Alerted (text : AlertText)
  | Unhandled (f : Failure).

(** ** JavaScript helpers *)

Definition dquote : string := String (ascii_of_nat 34) EmptyString.

(** The text of a number inside a template literal. *)
Definition decimal (n : N) : string := NilEmpty.string_of_uint (N.to_uint n).

Definition is_white_space (c : ascii) : bool :=
  let n := N_of_ascii c in
  ((9 <=? n) && (n <=? 13) || (n =? 32))%N.

Fixpoint trim_start (s : string) : string :=
  match s with
  | String c rest => if is_white_space c then trim_start rest else s
  | EmptyString => s
  end.

Definition digit_value (radix : Z) (c : ascii) : option Z :=
  let n := Z.of_N (N_of_ascii c) in
  let v := (if (48 <=? n) && (n <=? 57) then n - 48
            else if (97 <=? n) && (n <=? 122) then n - 87
            else if (65 <=? n) && (n <=? 90) then n - 55
            else 36)%Z in
  if (v <? radix)%Z then Some v else None.

(** The value of the longest prefix of digits; [None] when it is empty. *)
Fixpoint parse_digits (radix : Z) (s : string) (acc : option Z) : option Z :=
  match s with
  | EmptyString => acc
  | String c rest =>
      match digit_value radix c with
      | Some d =>
          parse_digits radix rest
            (Some (match acc with Some a => a * radix + d | None => d end)%Z)
      | None => acc
      end
  end.

(** [parseInt(s)] without a radix; [None] is NaN.  (A Number holds integers
    exactly up to 2^53; whatever is larger does not fit an [integer] column
    either way.)  In a request body NaN is written as [null]. *)
Definition parseInt (s : string) : option Z :=
  let s := trim_start s in
  let '(sign, s) :=
    match s with
    | String "-" rest => ((-1)%Z, rest)
    | String "+" rest => (1%Z, rest)
    | _ => (1%Z, s)
    end in
  let '(radix, s) :=
    match s with
    | String "0" (String "x" rest) => (16%Z, rest)
    | String "0" (String "X" rest) => (16%Z, rest)
    | _ => (10%Z, s)
    end in
  option_map (Z.mul sign) (parse_digits radix s None).


(** ** Shared pieces of the client *)

(** The notification row of an insert that names [user_id], [paper_id] and
    [message]: the database draws [id] and fills the defaults. *)
Definition new_notification (env : Env) (user_id paper_id message : string)
  : Notification.t :=
  Notification.mk (gen_random_uuid env) user_id (Some paper_id) message
                  false (db_now env).

(** [await supabase.from('notifications').insert(...)]: the answer is not
    looked at. *)
Definition notify (env : Env) (uid : string) (st : Store)
    (user_id paper_id message : string) : Store :=
  match insert_notification st uid (new_notification env user_id paper_id message) with
  | DbOk st' => st'
  | DbError _ => st
  end.

(** [.order('created_at', { ascending: false })]. *)
Fixpoint insert_desc {A : Type} (key : A -> N) (x : A) (l : list A) : list A :=
  match l with
  | [] => [x]
  | y :: rest =>
      if (key y <? key x)%N then x :: l else y :: insert_desc key x rest
  end.

Definition order_desc {A : Type} (key : A -> N) (l : list A) : list A :=
  fold_right (insert_desc key) [] l.

(** ** TutorDashboard

    [AppContent] mounts a dashboard only once [useAuth] has a profile, so
    the handlers below are given one; [auth.uid()] of the requests they
    send is its id. *)

Module TutorDashboard.

Definition accept_patch (env : Env) (profile : Profile.t) : PaperPatch :=
  mkPatch (Some (Some (Profile.id profile))) (Some accepted)
          None None None None (Some (Date_now env)).

Definition accept_message (paper : Paper.t) : string :=
  "Your paper " ++ dquote ++ Paper.title paper ++ dquote
  ++ " has been accepted by a tutor and is being checked.".

Definition handleAccept (env : Env) (profile : Profile.t) (paper : Paper.t)
    (st : Store) : Outcome * Store :=
  match update_papers st (Profile.id profile) (accept_patch env profile)
                      (Paper.id paper) with
  | DbError e => (Alerted (ErrorAcceptingPaper (PgFailure e)), st)
  | DbOk st1 =>
      (Returned,
       notify env (Profile.id profile) st1
              (Paper.learner_id paper) (Paper.id paper) (accept_message paper))
  end.

Definition reject_patch (env : Env) : PaperPatch :=
  mkPatch None (Some rejected) None None None None (Some (Date_now env)).

Definition reject_message (paper : Paper.t) : string :=
  "Your paper " ++ dquote ++ Paper.title paper ++ dquote
  ++ " was not accepted for checking.".

Definition handleReject (env : Env) (profile : Profile.t) (paper : Paper.t)
    (st : Store) : Outcome * Store :=
  match update_papers st (Profile.id profile) (reject_patch env) (Paper.id paper) with
  | DbError e => (Alerted (ErrorRejectingPaper (PgFailure e)), st)
  | DbOk st1 =>
      (Returned,
       notify env (Profile.id profile) st1
              (Paper.learner_id paper) (Paper.id paper) (reject_message paper))
  end.

(** The filter [.or(`tutor_id.eq.${profile.id},status.eq.pending`)]. *)
Definition mine_or_pending (profile : Profile.t) (p : Paper.t) : bool :=
  eq_uid (Paper.tutor_id p) (Profile.id profile)
  || PaperStatus_eqb (Paper.status p) pending.

(** [loadPapers] of the tutor's dashboard: the list it hands to
    [setPapers]. *)
Definition loadPapers (profile : Profile.t) (st : Store) : list Paper.t :=
  order_desc Paper.created_at
    (filter (fun p => papers_select st (Profile.id profile) p
                      && mine_or_pending profile p)
            (papers st)).

(** The buttons the dashboard renders on the card of a listed paper. *)
Inductive Button : Type :=
  | Accept
  | Reject
  | DownloadAsWord
  | AnnotateAndCheck
  | ViewDetails.

Definition Button_eqb (a b : Button) : bool :=
  match a, b with
  | Accept, Accept | Reject, Reject | DownloadAsWord, DownloadAsWord
  | AnnotateAndCheck, AnnotateAndCheck | ViewDetails, ViewDetails => true
  | _, _ => false
  end.

Definition buttons (profile : Profile.t) (paper : Paper.t) : list Button :=
  (if PaperStatus_eqb (Paper.status paper) pending then [Accept; Reject] else [])
  ++ (if PaperStatus_eqb (Paper.status paper) accepted
         && eq_uid (Paper.tutor_id paper) (Profile.id profile)
      then [DownloadAsWord; AnnotateAndCheck] else [])
  ++ [ViewDetails].

Definition renders (profile : Profile.t) (paper : Paper.t) (b : Button) : bool :=
  existsb (Button_eqb b) (buttons profile paper).

(** [filteredPapers]: the cards shown under the filter the tutor chose
    ('all', 'pending', 'mine'; any other text filters nothing). *)
Definition filteredPapers (filterStatus : string) (profile : Profile.t)
    (papers : list Paper.t) : list Paper.t :=
  filter (fun paper =>
            if filterStatus =? "all" then true
            else if filterStatus =? "pending"
                 then PaperStatus_eqb (Paper.status paper) pending
                 else if filterStatus =? "mine"
                      then eq_uid (Paper.tutor_id paper) (Profile.id profile)
                      else true)
         papers.

(** The three counters above the list. *)
Module stats.

Definition pending (papers : list Paper.t) : nat :=
  List.length (filter (fun p => PaperStatus_eqb (Paper.status p) pending) papers).

Definition myPapers (profile : Profile.t) (papers : list Paper.t) : nat :=
  List.length (filter (fun p => eq_uid (Paper.tutor_id p) (Profile.id profile)
                           && negb (PaperStatus_eqb (Paper.status p) rejected))
                 papers).

Definition completed (profile : Profile.t) (papers : list Paper.t) : nat :=
  List.length (filter (fun p => eq_uid (Paper.tutor_id p) (Profile.id profile)
                           && PaperStatus_eqb (Paper.status p) checked)
                 papers).

End stats.

End TutorDashboard.

(** ** AnnotationEditor *)

Module AnnotationEditor.

Definition submit_patch (env : Env) (publicUrl marks grade feedback : string)
  : PaperPatch :=
  mkPatch None (Some checked) (Some (Some publicUrl))
          (Some (parseInt marks)) (Some (Some grade)) (Some (Some feedback))
          (Some (Date_now env)).

Definition submit_message (paper : Paper.t) (marks grade : string) : string :=
  "Your paper " ++ dquote ++ Paper.title paper ++ dquote
  ++ " has been checked! Grade: " ++ grade ++ ", Marks: " ++ marks.

Definition checked_file_path (env : Env) (paper : Paper.t) : string :=
  let fileName := "checked_" ++ decimal (Date_now env) ++ ".png" in
  Paper.learner_id paper ++ "/checked_" ++ Paper.id paper ++ "_" ++ fileName.



(** [handleSubmit] together with the callback it hands to [toBlob]. *)
Definition handleSubmit (env : Env) (profile : Profile.t) (paper : Paper.t)
    (marks grade feedback : string) (canvas : Canvas) (st : Store)
  : Outcome * Store :=
  if (marks =? "") || (grade =? "") then (Alerted PleaseFillInMarksAndGrade, st)
  else
    match canvas with
    | NoCanvas => (Alerted (ErrorSaving CanvasNotFound), st)
    | NullBlob => (Unhandled FailedToCreateBlob, st)
    | Blob png =>
        match storage_upload env (checked_file_path env paper) png with
        | None => (Unhandled StorageFailure, st)
        | Some path =>
            match update_papers st (Profile.id profile)
                    (submit_patch env (getPublicUrl env path) marks grade feedback)
                    (Paper.id paper) with
            | DbError e => (Unhandled (PgFailure e), st)
            | DbOk st1 =>
                (Alerted PaperCheckedSuccessfully,
                 notify env (Profile.id profile) st1
                        (Paper.learner_id paper) (Paper.id paper)
                        (submit_message paper marks grade))
            end
        end
    end.

End AnnotationEditor.

(** ** LearnerDashboard *)

Module LearnerDashboard.

Definition uploadFile (env : Env) (file : File) (path : string) : Failure + string :=
  match storage_upload env path (bytes file) with
  | None => inl StorageFailure
  | Some stored => inr (getPublicUrl env stored)
  end.

(** The row of the insert in [handleUpload]; the columns it does not name
    take their defaults. *)
Definition new_paper (env : Env) (profile : Profile.t) (title answerSheetUrl : string)
    (questionPaperUrl : option string) : Paper.t :=
  Paper.mk (gen_random_uuid env) (Profile.id profile) None title
           answerSheetUrl questionPaperUrl None pending None None None
           (db_now env) (db_now env).

Definition insert_uploaded (env : Env) (profile : Profile.t) (title answerSheetUrl : string)
    (questionPaperUrl : option string) (st : Store) : Outcome * Store :=
  match insert_paper st (Profile.id profile)
          (new_paper env profile title answerSheetUrl questionPaperUrl) with
  | DbError e => (Alerted (UploadFailed (PgFailure e)), st)
  | DbOk st1 => (Returned, st1)
  end.

Definition handleUpload (env : Env) (profile : Profile.t) (title : string)
    (answerSheet questionPaper : option File) (st : Store) : Outcome * Store :=
  match answerSheet with
  | None => (Returned, st)
  | Some sheet =>
      let timestamp := decimal (Date_now env) in
      match uploadFile env sheet
              (Profile.id profile ++ "/answer_" ++ timestamp ++ "_" ++ name sheet) with
      | inl f => (Alerted (UploadFailed f), st)
      | inr answerSheetUrl =>
          match questionPaper with
          | None => insert_uploaded env profile title answerSheetUrl None st
          | Some question =>
              match uploadFile env question
                      (Profile.id profile ++ "/question_" ++ timestamp ++ "_"
                       ++ name question) with
              | inl f => (Alerted (UploadFailed f), st)
              | inr questionPaperUrl =>
                  insert_uploaded env profile title answerSheetUrl
                                  (Some questionPaperUrl) st
              end
          end
      end
  end.

(** [loadPapers] of the learner's dashboard. *)
Definition loadPapers (profile : Profile.t) (st : Store) : list Paper.t :=
  order_desc Paper.created_at
    (filter (fun p => papers_select st (Profile.id profile) p
                      && (Paper.learner_id p =? Profile.id profile))
            (papers st)).

(** The four counters above the learner's list. *)
Module stats.

Definition total (papers : list Paper.t) : nat := List.length papers.

Definition pending (papers : list Paper.t) : nat :=
  List.length (filter (fun p => PaperStatus_eqb (Paper.status p) pending) papers).

Definition accepted (papers : list Paper.t) : nat :=
  List.length (filter (fun p => PaperStatus_eqb (Paper.status p) accepted) papers).

Definition checked (papers : list Paper.t) : nat :=
  List.length (filter (fun p => PaperStatus_eqb (Paper.status p) checked) papers).

End stats.

End LearnerDashboard.

(** ** Navbar *)

Module Navbar.

Definition loadNotifications (profile : Profile.t) (st : Store) : list Notification.t :=
  firstn 10
    (order_desc Notification.created_at
       (filter (fun n => notifications_select (Profile.id profile) n
                         && (Notification.user_id n =? Profile.id profile))
               (notifications st))).

(** [markAsRead]: the answer of the update is not looked at. *)
Definition markAsRead (profile : Profile.t) (notificationId : string) (st : Store)
  : Outcome * Store :=
  match update_notifications_is_read st (Profile.id profile) notificationId with
  | DbOk st1 => (Returned, st1)
  | DbError _ => (Returned, st)
  end.

(** The number on the bell. *)
Definition unreadCount (notifications : list Notification.t) : nat :=
  List.length (filter (fun n => negb (Notification.is_read n)) notifications).

End Navbar.

(** ** App: who can run which handler *)

(** Modelled from the spec: [useAuth] of [contexts/AuthContext], which is
    not among the sources.  The spec leaves identity to an external system
    that gives every actor an identity and a role; here the actor's profile
    is the [profiles] row of the signed-in user. *)
Definition useAuth (st : Store) (uid : string) : option Profile.t :=
  find (fun pr => Profile.id pr =? uid) (profiles st).

(** What a signed-in user can do to the store through the pages.  The
    paper a tutor's click carries is a card of the list the dashboard holds:
    a row as some earlier [loadPapers] read it. *)
Inductive Click : Type :=
  | SubmitUploadForm (title : string) (answerSheet questionPaper : option File)
  | ClickAccept (paper : Paper.t)
  | ClickReject (paper : Paper.t)
  | ClickSubmitCheckedPaper (paper : Paper.t) (marks grade feedback : string)
                            (canvas : Canvas)
  | ClickNotification (notificationId : string).

(** [AppContent] shows [LearnerDashboard] to a learner and [TutorDashboard]
    to a tutor, both under the [Navbar]; a handler runs through the button
    that is rendered for it.  [None]: the page has no such control. *)
Definition dispatch (env : Env) (uid : string) (c : Click) (st : Store)
  : option (Outcome * Store) :=
  match useAuth st uid with
  | None => None
  | Some profile =>
      match c, Profile.role profile with
      | SubmitUploadForm title answerSheet questionPaper, learner =>
          Some (LearnerDashboard.handleUpload env profile title answerSheet questionPaper st)
      | ClickAccept paper, tutor =>
          if TutorDashboard.renders profile paper TutorDashboard.Accept
          then Some (TutorDashboard.handleAccept env profile paper st) else None
      | ClickReject paper, tutor =>
          if TutorDashboard.renders profile paper TutorDashboard.Reject
          then Some (TutorDashboard.handleReject env profile paper st) else None
      | ClickSubmitCheckedPaper paper marks grade feedback canvas, tutor =>
          if TutorDashboard.renders profile paper TutorDashboard.AnnotateAndCheck
          then Some (AnnotationEditor.handleSubmit env profile paper marks grade feedback canvas st)
          else None
      | ClickNotification notificationId, _ =>
          Some (Navbar.markAsRead profile notificationId st)
      | _, _ => None
      end
  end.

Record Event : Type := mkEvent {
  actor : string;
  env_of : Env;
  click : Click
}.

Definition step (st : Store) (e : Event) : Store :=
  match dispatch (env_of e) (actor e) (click e) st with
  | Some (_, st') => st'
  | None => st
  end.

(** The store after a history of events, each run to its end before the
    next begins. *)
Definition run (history : list Event) (st : Store) : Store :=
  fold_left step history st.

(** A database that holds the registered users and nothing else yet. *)
Definition fresh_store (users : list Profile.t) : Store :=
  mkStore users [] [].

(** A handler call counts as done when it reports no failure. *)
Definition succeeded (o : Outcome) : bool :=
  match o with
  | Returned => true
  | Alerted PaperCheckedSuccessfully => true
  | _ => false
  end.

(** ** A small school: one learner and two tutors *)

Local Open Scope N_scope.

Definition lea : Profile.t :=
  Profile.mk "L1" "lea@school.test" "Lea" learner (Some "Grade 10") None 1 1.

Definition tom : Profile.t :=
  Profile.mk "T1" "tom@school.test" "Tom" tutor None (Some "Mathematics") 2 2.

Definition tia : Profile.t :=
  Profile.mk "T2" "tia@school.test" "Tia" tutor None (Some "Physics") 3 3.

Definition school : Store := fresh_store [lea; tom; tia].

(** A bucket that stores what it is given, and clocks and uuids as the
    call at instant [t] sees them. *)
Definition env_at (t : N) (uuid : string) : Env :=
  mkEnv t t uuid (fun path _ => Some path)
        (fun path => "https://school.test/storage/v1/object/public/papers/" ++ path).

Definition sheet : File := mkFile "quiz.png" "PNG".

(** Lea uploads "Algebra Quiz" at instant 10. *)
Definition upload_quiz : Event :=
  mkEvent "L1" (env_at 10 "P1") (SubmitUploadForm "Algebra Quiz" (Some sheet) None).

Definition school_with_quiz : Store := run [upload_quiz] school.

(** The card of the quiz as a tutor's dashboard lists it while it is
    pending. *)
Definition quiz_pending : Paper.t :=
  Paper.mk "P1" "L1" None "Algebra Quiz"
    "https://school.test/storage/v1/object/public/papers/L1/answer_10_quiz.png"
    None None pending None None None 10 10.

(** The card once Tom has accepted it at instant 20. *)
Definition quiz_accepted : Paper.t :=
  Paper.mk "P1" "L1" (Some "T1") "Algebra Quiz"
    "https://school.test/storage/v1/object/public/papers/L1/answer_10_quiz.png"
    None None accepted None None None 10 20.

Definition tom_accepts : Event :=
  mkEvent "T1" (env_at 20 "N1") (ClickAccept quiz_pending).

Definition school_quiz_accepted : Store := run [upload_quiz; tom_accepts] school.

(** Tom clicks Reject on the card that still shows the quiz as pending:
    the list is reloaded only after [handleAccept] has finished, and by
    another session of his only when the change feed reaches it. *)
Definition tom_rejects : Event :=
  mkEvent "T1" (env_at 30 "N2") (ClickReject quiz_pending).

(** Tom grades the quiz in the annotation editor at instant 40. *)
Definition tom_submits (marks grade : string) : Event :=
  mkEvent "T1" (env_at 40 "N3")
          (ClickSubmitCheckedPaper quiz_accepted marks grade "" (Blob "PNG")).

Definition tom_rejects_late : Event :=
  mkEvent "T1" (env_at 50 "N4") (ClickReject quiz_pending).

Definition checked_url : string :=
  "https://school.test/storage/v1/object/public/papers/L1/checked_P1_checked_40.png".

(** Tia clicks Accept, then Reject, on the card that still shows the quiz
    as pending, after Tom has accepted it. *)
Definition tia_accepts : Event :=
  mkEvent "T2" (env_at 30 "N2") (ClickAccept quiz_pending).

Definition tia_rejects : Event :=
  mkEvent "T2" (env_at 35 "N5") (ClickReject quiz_pending).

(** Tom clicks a notification that is Lea's. *)
Definition tom_clicks_bell : Event :=
  mkEvent "T1" (env_at 60 "N6") (ClickNotification "N1").

Local Close Scope N_scope.

(** ** Vocabulary of the statements below *)

(** A paper after a decline: as before, or with the status rejected and
    the time of the update, every other column as before. *)
Definition declined_from (env : Env) (p p' : Paper.t) : Prop :=
  p' = p
  \/ p' = Paper.mk (Paper.id p) (Paper.learner_id p) (Paper.tutor_id p)
                   (Paper.title p) (Paper.answer_sheet_url p)
                   (Paper.question_paper_url p) (Paper.checked_sheet_url p)
                   rejected (Paper.marks p) (Paper.grade p) (Paper.feedback p)
                   (Paper.created_at p) (Date_now env).


(** What a call of a handler does to the notifications.  A call that
    reports no failure (its update returned no error, whether or not it
    reached a row) has appended exactly one notification, unread, for the
    learner of the paper and about that paper; a call that reports a
    failure has left the store as it was. *)
Definition notified_once (paper : Paper.t) (st : Store) (r : Outcome * Store) : Prop :=
  if succeeded (fst r)
  then exists n, notifications (snd r) = (notifications st ++ [n])%list
                 /\ Notification.user_id n = Paper.learner_id paper
                 /\ Notification.paper_id n = Some (Paper.id paper)
                 /\ Notification.is_read n = false
  else snd r = st.

(** The one row [p'] of a paper and the one notification [n] a transition
    leaves behind: the outcome is [o], [p'] is stored, and [n] has been
    appended to the notifications. *)
Definition transition_done (st : Store) (r : Outcome * Store) (o : Outcome)
    (p' : Paper.t) (n : Notification.t) : Prop :=
  fst r = o
  /\ In p' (papers (snd r))
  /\ notifications (snd r) = (notifications st ++ [n])%list.

(** The user [uid] is registered with role [r]. *)
Definition registered_as (users : list Profile.t) (uid : string) (r : UserRole) : Prop :=
  exists pr, find (fun pr => Profile.id pr =? uid) users = Some pr
             /\ Profile.role pr = r.

(** What every stored paper satisfies after any history (proved below). *)
Definition lifecycle_invariant (users : list Profile.t) (p : Paper.t) : Prop :=
  (Paper.status p = pending ->
     Paper.tutor_id p = None /\ Paper.marks p = None /\ Paper.grade p = None
     /\ Paper.checked_sheet_url p = None)
  /\ (Paper.status p = accepted -> Paper.tutor_id p <> None)
  /\ (Paper.status p = checked ->
        Paper.tutor_id p <> None /\ Paper.grade p <> None
        /\ Paper.checked_sheet_url p <> None)
  /\ ((Paper.marks p = None /\ Paper.grade p = None
       /\ Paper.checked_sheet_url p = None)
      \/ (Paper.grade p <> None /\ Paper.checked_sheet_url p <> None))
  /\ registered_as users (Paper.learner_id p) learner.

(** Newest first: no element is older than one that follows it. *)
Definition newest_first {A : Type} (key : A -> N) (a b : A) : Prop :=
  (key b <= key a)%N.

(** The columns of a paper that no statement of the client ever names in
    an update. *)
Definition same_upload (p p' : Paper.t) : Prop :=
  Paper.id p' = Paper.id p
  /\ Paper.learner_id p' = Paper.learner_id p
  /\ Paper.title p' = Paper.title p
  /\ Paper.answer_sheet_url p' = Paper.answer_sheet_url p
  /\ Paper.question_paper_url p' = Paper.question_paper_url p
  /\ Paper.created_at p' = Paper.created_at p.

(** [l'] continues [l]: it holds a row for every row of [l], in the same
    order and related by [R], and then possibly more rows. *)
Definition continues {A : Type} (R : A -> A -> Prop) (l l' : list A) : Prop :=
  exists kept added, l' = (kept ++ added)%list /\ Forall2 R l kept.

(** The store is as a history leaves it: with the registered users it
    began with, and every paper within the lifecycle invariant. *)
Definition well_kept (users : list Profile.t) (st : Store) : Prop :=
  profiles st = users /\ Forall (lifecycle_invariant users) (papers st).

(** Keys and references of the two tables the pages write to. *)
Definition keys_and_references (users : list Profile.t) (st : Store) : Prop :=
  NoDup (map Paper.id (papers st))
  /\ NoDup (map Notification.id (notifications st))
  /\ Forall (fun p => registered_as users (Paper.learner_id p) learner
                      /\ forall t, Paper.tutor_id p = Some t ->
                                   registered_as users t tutor)
            (papers st)
  /\ Forall (fun n => profile_exists st (Notification.user_id n) = true
                      /\ exists pid, Notification.paper_id n = Some pid
                                     /\ paper_exists st pid = true)
            (notifications st).

(** * Properties *)

(** ** The statements *)

Lemma eq_uid_true (column : option string) (uid : string) :
  eq_uid column uid = true <-> column = Some uid.
Proof.
  destruct column as [v|]; simpl.
  - rewrite String.eqb_eq. split; congruence.
  - split; discriminate.
Qed.

Lemma PaperStatus_eqb_eq (a b : PaperStatus) :
  PaperStatus_eqb a b = true <-> a = b.
Proof. destruct a, b; simpl; split; congruence. Qed.

Lemma useAuth_id (st : Store) (uid : string) (pr : Profile.t) :
  useAuth st uid = Some pr -> Profile.id pr = uid.
Proof.
  unfold useAuth. intros H. apply find_some in H.
  now apply String.eqb_eq.
Qed.

(** What a successful update leaves behind: the other tables as they were,
    the reached rows patched, and every new row admitted by the policies. *)
Lemma update_papers_ok (st st' : Store) (uid pid : string) (u : PaperPatch) :
  update_papers st uid u pid = DbOk st' ->
  st' = mkStore (profiles st) (patch_rows st uid pid u) (notifications st)
  /\ forall p, In p (papers st) -> update_target st uid pid p = true ->
               new_row_allowed st uid (apply_patch u p) = true.
Proof.
  unfold update_papers.
  destruct (negb (patch_fits u) && existsb _ _); [discriminate|].
  destruct (forallb (new_row_allowed st uid) _) eqn:Hrls; simpl; [|discriminate].
  destruct (forallb (paper_foreign_keys st) _); simpl; [|discriminate].
  intros H. injection H as <-. split; [reflexivity|].
  intros p Hin Ht. rewrite forallb_forall in Hrls.
  apply Hrls, in_map, filter_In. now split.
Qed.

(** A patch alters nothing when the statement reaches no row. *)
Lemma patch_rows_unreached (st : Store) (uid pid : string) (u : PaperPatch) :
  (forall p, In p (papers st) -> update_target st uid pid p = false) ->
  patch_rows st uid pid u = papers st.
Proof.
  unfold patch_rows. intros H.
  induction (papers st) as [|p l IH]; simpl; [reflexivity|].
  rewrite (H p) by now left.
  f_equal. apply IH. intros q Hq. apply H. now right.
Qed.

Lemma notify_papers (env : Env) (uid : string) (st : Store) (user paper msg : string) :
  papers (notify env uid st user paper msg) = papers st.
Proof.
  unfold notify, insert_notification.
  destruct (negb _); [reflexivity|].
  destruct (notification_exists _ _); [reflexivity|].
  destruct (negb _); reflexivity.
Qed.

Lemma notify_profiles (env : Env) (uid : string) (st : Store) (user paper msg : string) :
  profiles (notify env uid st user paper msg) = profiles st.
Proof.
  unfold notify, insert_notification.
  destruct (negb _); [reflexivity|].
  destruct (notification_exists _ _); [reflexivity|].
  destruct (negb _); reflexivity.
Qed.

(** The papers after a handler that sends one update and then notifies:
    either the table as it was, or the patched rows. *)
Lemma update_papers_cases (st : Store) (uid pid : string) (u : PaperPatch) :
  match update_papers st uid u pid with
  | DbOk st' =>
      profiles st' = profiles st /\ notifications st' = notifications st
      /\ papers st' = patch_rows st uid pid u
  | DbError _ => True
  end.
Proof.
  destruct (update_papers st uid u pid) as [st'|e] eqn:H; [|exact I].
  apply update_papers_ok in H. destruct H as [-> _]. now repeat split.
Qed.

(** The rows a caller cannot reach: not its own as learner, not assigned to
    it, and not open for claiming. *)
Lemma update_target_false (st : Store) (uid pid : string) (p : Paper.t) :
  Paper.id p = pid ->
  Paper.learner_id p <> uid ->
  Paper.tutor_id p <> Some uid ->
  (Paper.tutor_id p <> None \/ Paper.status p <> pending) ->
  update_target st uid pid p = false.
Proof.
  intros _ Hl Ht Hopen. unfold update_target, papers_update_using,
    learners_can_update_own_papers, tutors_can_update_assigned_papers_using.
  apply String.eqb_neq in Hl. rewrite Hl. simpl.
  assert (Hn : eq_uid (Paper.tutor_id p) uid = false).
  { destruct (eq_uid _ _) eqn:E; [|reflexivity]. now apply eq_uid_true in E. }
  rewrite Hn. simpl.
  assert (Ho : is_null (Paper.tutor_id p) && PaperStatus_eqb (Paper.status p) pending
               = false).
  { destruct Hopen as [H|H].
    - destruct (Paper.tutor_id p); [reflexivity|congruence].
    - destruct (Paper.status p); try congruence; apply andb_false_r. }
  rewrite Ho. simpl. apply andb_false_r.
Qed.

(** Row by row, the patched table relates to the old one by any relation
    that holds of an untouched row and of a reached row and its patch. *)
Lemma Forall2_patch_rows (R : Paper.t -> Paper.t -> Prop)
    (st : Store) (uid pid : string) (u : PaperPatch) :
  (forall p, In p (papers st) -> R p p) ->
  (forall p, In p (papers st) -> update_target st uid pid p = true ->
             R p (apply_patch u p)) ->
  Forall2 R (papers st) (patch_rows st uid pid u).
Proof.
  unfold patch_rows. intros Hsame Hnew.
  induction (papers st) as [|p l IH]; simpl; constructor.
  - destruct (update_target st uid pid p) eqn:E.
    + apply Hnew; [now left|exact E].
    + apply Hsame. now left.
  - apply IH; intros q Hq; [apply Hsame|apply Hnew]; now right.
Qed.

Lemma Forall2_same {A : Type} (R : A -> A -> Prop) (l : list A) :
  (forall x, In x l -> R x x) -> Forall2 R l l.
Proof.
  induction l as [|x l IH]; intros H; constructor.
  - apply H. now left.
  - apply IH. intros y Hy. apply H. now right.
Qed.

(** ** The three handlers that update a paper *)

(** Each of them leaves the papers as they were, or as its one update
    patched them. *)
Lemma handleAccept_papers (env : Env) (profile : Profile.t) (paper : Paper.t)
    (st : Store) :
  let st' := snd (TutorDashboard.handleAccept env profile paper st) in
  profiles st' = profiles st
  /\ match update_papers st (Profile.id profile)
             (TutorDashboard.accept_patch env profile) (Paper.id paper) with
     | DbOk _ =>
         papers st' = patch_rows st (Profile.id profile) (Paper.id paper)
                        (TutorDashboard.accept_patch env profile)
     | DbError _ => st' = st
     end.
Proof.
  unfold TutorDashboard.handleAccept.
  pose proof (update_papers_cases st (Profile.id profile) (Paper.id paper)
                (TutorDashboard.accept_patch env profile)) as H.
  destruct (update_papers _ _ _ _) as [st1|e]; simpl.
  - rewrite notify_profiles, notify_papers. now destruct H as (? & _ & ?).
  - now split.
Qed.

Lemma handleReject_papers (env : Env) (profile : Profile.t) (paper : Paper.t)
    (st : Store) :
  let st' := snd (TutorDashboard.handleReject env profile paper st) in
  profiles st' = profiles st
  /\ match update_papers st (Profile.id profile)
             (TutorDashboard.reject_patch env) (Paper.id paper) with
     | DbOk _ =>
         papers st' = patch_rows st (Profile.id profile) (Paper.id paper)
                        (TutorDashboard.reject_patch env)
     | DbError _ => st' = st
     end.
Proof.
  unfold TutorDashboard.handleReject.
  pose proof (update_papers_cases st (Profile.id profile) (Paper.id paper)
                (TutorDashboard.reject_patch env)) as H.
  destruct (update_papers _ _ _ _) as [st1|e]; simpl.
  - rewrite notify_profiles, notify_papers. now destruct H as (? & _ & ?).
  - now split.
Qed.

(** [handleSubmit] either stops before its update and leaves the store, or
    it has uploaded the picture and behaves as its update does. *)
Lemma handleSubmit_papers (env : Env) (profile : Profile.t) (paper : Paper.t)
    (marks grade feedback : string) (canvas : Canvas) (st : Store) :
  let st' := snd (AnnotationEditor.handleSubmit env profile paper marks grade
                    feedback canvas st) in
  st' = st
  \/ exists url st1,
       update_papers st (Profile.id profile)
         (AnnotationEditor.submit_patch env url marks grade feedback)
         (Paper.id paper) = DbOk st1
       /\ marks <> "" /\ grade <> ""
       /\ profiles st' = profiles st
       /\ papers st' = patch_rows st (Profile.id profile) (Paper.id paper)
                         (AnnotationEditor.submit_patch env url marks grade feedback).
Proof.
  unfold AnnotationEditor.handleSubmit.
  destruct (marks =? "") eqn:Em; simpl; [now left|].
  destruct (grade =? "") eqn:Eg; simpl; [now left|].
  destruct canvas as [| |png]; simpl; try now left.
  destruct (storage_upload env _ png) as [path|]; simpl; [|now left].
  destruct (update_papers _ _ _ _) as [st1|e] eqn:Hu; simpl; [|now left].
  right. exists (getPublicUrl env path), st1.
  pose proof (update_papers_cases st (Profile.id profile) (Paper.id paper)
    (AnnotationEditor.submit_patch env (getPublicUrl env path) marks grade feedback)) as H.
  rewrite Hu in H. destruct H as (Hp & _ & Hr).
  rewrite notify_profiles, notify_papers.
  apply String.eqb_neq in Em, Eg. now repeat split.
Qed.

Lemma update_target_true (st : Store) (uid pid : string) (p : Paper.t) :
  update_target st uid pid p = true ->
  Paper.id p = pid
  /\ (Paper.learner_id p = uid
      \/ Paper.tutor_id p = Some uid
      \/ (Paper.tutor_id p = None /\ Paper.status p = pending
          /\ exists_tutor_profile st uid = true)).
Proof.
  unfold update_target, papers_update_using, learners_can_update_own_papers,
    tutors_can_update_assigned_papers_using.
  rewrite !andb_true_iff, !orb_true_iff, !andb_true_iff.
  rewrite !String.eqb_eq, eq_uid_true, PaperStatus_eqb_eq.
  intros [[Hid _] Hu]. split; [exact Hid|].
  destruct Hu as [H|[H|[[Hn Hs] Ht]]]; auto.
  right; right. repeat split; auto.
  destruct (Paper.tutor_id p); [discriminate|reflexivity].
Qed.

Lemma new_row_allowed_true (st : Store) (uid : string) (p : Paper.t) :
  new_row_allowed st uid p = true ->
  Paper.learner_id p = uid \/ Paper.tutor_id p = Some uid.
Proof.
  unfold new_row_allowed, papers_update_check, learners_can_update_own_papers,
    tutors_can_update_assigned_papers_check.
  rewrite !andb_true_iff, !orb_true_iff, !andb_true_iff.
  rewrite !String.eqb_eq, eq_uid_true.
  intros [_ [H|[H|[H _]]]]; auto.
Qed.

(** C1 (as amended).  A claim on a stored paper whose tutor_id is already
    set, by a caller who is not the paper's learner, re-assigns nobody:
    every paper keeps its tutor_id, and unless the stored tutor is the
    caller itself the row is not changed at all.  The row-level UPDATE
    policy is the conditional write: it admits the row only while tutor_id
    is null and the status pending, or for the tutor it names. *)
Theorem handleAccept_keeps_assigned_reviewer
    (env : Env) (profile : Profile.t) (paper : Paper.t) (st : Store) :
  (forall p, In p (papers st) -> Paper.id p = Paper.id paper ->
             Paper.tutor_id p <> None /\ Paper.learner_id p <> Profile.id profile) ->
  Forall2 (fun p p' =>
             Paper.tutor_id p' = Paper.tutor_id p
             /\ (Paper.tutor_id p <> Some (Profile.id profile) -> p' = p))
          (papers st)
          (papers (snd (TutorDashboard.handleAccept env profile paper st))).
Proof.
  intros H.
  destruct (handleAccept_papers env profile paper st) as [_ Hc].
  destruct (update_papers _ _ _ _) as [st1|e].
  - rewrite Hc. apply Forall2_patch_rows.
    + intros p _. now split.
    + intros p Hin Ht. apply update_target_true in Ht.
      destruct Ht as [Hid Hwho]. destruct (H p Hin Hid) as [Hset Hl].
      destruct Hwho as [Hw|[Hw|[Hw _]]]; try congruence.
      simpl. split; [now rewrite Hw|congruence].
  - rewrite Hc. apply Forall2_same. intros p _. now split.
Qed.

Lemma handleAccept_keeps_assigned_reviewer_witness :
  (forall p, In p (papers school_quiz_accepted) -> Paper.id p = Paper.id quiz_pending ->
             Paper.tutor_id p <> None /\ Paper.learner_id p <> Profile.id tia)
  /\ Forall2 (fun p p' =>
                Paper.tutor_id p' = Paper.tutor_id p
                /\ (Paper.tutor_id p <> Some (Profile.id tia) -> p' = p))
             (papers school_quiz_accepted)
             (papers (snd (TutorDashboard.handleAccept (env_at 30 "N2") tia
                             quiz_pending school_quiz_accepted))).
Proof.
  assert (H : forall p, In p (papers school_quiz_accepted) ->
                        Paper.id p = Paper.id quiz_pending ->
                        Paper.tutor_id p <> None /\ Paper.learner_id p <> Profile.id tia).
  { intros p Hin _. vm_compute in Hin. destruct Hin as [<-|[]].
    split; discriminate. }
  split; [exact H|].
  exact (handleAccept_keeps_assigned_reviewer (env_at 30 "N2") tia quiz_pending
           school_quiz_accepted H).
Defined.

(** C1, as the claim states it, fails: the quiz is assigned to Tom, Tia
    claims it from a card that still shows it pending, and her call is not
    refused; it runs to its end and the learner is told a second time that
    the paper was accepted. *)
Lemma second_claim_is_not_refused :
  map Paper.tutor_id (papers school_quiz_accepted) = [Some "T1"]
  /\ fst (TutorDashboard.handleAccept (env_at 30 "N2") tia quiz_pending
            school_quiz_accepted) = Returned
  /\ map Notification.id
         (notifications (snd (TutorDashboard.handleAccept (env_at 30 "N2") tia
                                quiz_pending school_quiz_accepted)))
     = ["N1"; "N2"].
Proof. vm_compute. repeat split. Qed.

(** The rows of one id a caller cannot reach are left alone by any update
    of that id. *)
Lemma unreached_update (st : Store) (uid pid : string) (u : PaperPatch) :
  (forall p, In p (papers st) -> Paper.id p = pid ->
             update_target st uid pid p = false) ->
  patch_rows st uid pid u = papers st.
Proof.
  intros H. apply patch_rows_unreached. intros p Hin.
  destruct (update_target st uid pid p) eqn:E; [|reflexivity].
  rewrite <- E. apply H; [exact Hin|]. now apply update_target_true in E.
Qed.

(** C2 (as amended).  A claim or a decline aimed at a stored paper that is
    no longer pending changes no paper when the caller is neither the
    tutor the paper names nor its learner: the row-level UPDATE policy
    keeps the row out of the statement's reach. *)
Theorem accept_and_reject_spare_settled_papers
    (env : Env) (profile : Profile.t) (paper : Paper.t) (st : Store) :
  (forall p, In p (papers st) -> Paper.id p = Paper.id paper ->
             Paper.status p <> pending
             /\ Paper.tutor_id p <> Some (Profile.id profile)
             /\ Paper.learner_id p <> Profile.id profile) ->
  papers (snd (TutorDashboard.handleAccept env profile paper st)) = papers st
  /\ papers (snd (TutorDashboard.handleReject env profile paper st)) = papers st.
Proof.
  intros H.
  assert (Hun : forall u, patch_rows st (Profile.id profile) (Paper.id paper) u
                          = papers st).
  { intros u. apply unreached_update. intros p Hin Hid.
    destruct (H p Hin Hid) as (Hs & Ht & Hl).
    apply update_target_false; auto. }
  split.
  - destruct (handleAccept_papers env profile paper st) as [_ Hc].
    destruct (update_papers _ _ _ _); rewrite Hc; [apply Hun|reflexivity].
  - destruct (handleReject_papers env profile paper st) as [_ Hc].
    destruct (update_papers _ _ _ _); rewrite Hc; [apply Hun|reflexivity].
Qed.

Lemma accept_and_reject_spare_settled_papers_witness :
  papers (snd (TutorDashboard.handleAccept (env_at 30 "N2") tia quiz_pending
                 school_quiz_accepted)) = papers school_quiz_accepted
  /\ papers (snd (TutorDashboard.handleReject (env_at 30 "N2") tia quiz_pending
                    school_quiz_accepted)) = papers school_quiz_accepted.
Proof.
  apply (accept_and_reject_spare_settled_papers (env_at 30 "N2") tia quiz_pending
           school_quiz_accepted).
  intros p Hin _. vm_compute in Hin. destruct Hin as [<-|[]].
  repeat split; discriminate.
Defined.

(** C2, as the claim states it, fails: Tom has accepted the quiz and
    declines it from the card that still shows it pending.  Nothing
    refuses the call; the paper goes from accepted to rejected and a
    notification is inserted. *)
Lemma decline_of_assigned_paper_goes_through :
  map Paper.status (papers school_quiz_accepted) = [accepted]
  /\ fst (TutorDashboard.handleReject (env_at 30 "N2") tom quiz_pending
            school_quiz_accepted) = Returned
  /\ map Paper.status
         (papers (snd (TutorDashboard.handleReject (env_at 30 "N2") tom
                         quiz_pending school_quiz_accepted)))
     = [rejected]
  /\ map Notification.id
         (notifications (snd (TutorDashboard.handleReject (env_at 30 "N2") tom
                                quiz_pending school_quiz_accepted)))
     = ["N1"; "N2"].
Proof. vm_compute. repeat split. Qed.

(** C4 (as amended).  Whatever marks, grade, feedback and picture it is
    given, a finalize by a caller who is neither the tutor the stored paper
    names nor its learner changes no paper: the row-level UPDATE policy
    hides the row from the statement, or refuses the new row. *)
Theorem handleSubmit_by_stranger_changes_no_paper
    (env : Env) (profile : Profile.t) (paper : Paper.t)
    (marks grade feedback : string) (canvas : Canvas) (st : Store) :
  (forall p, In p (papers st) -> Paper.id p = Paper.id paper ->
             Paper.tutor_id p <> Some (Profile.id profile)
             /\ Paper.learner_id p <> Profile.id profile) ->
  papers (snd (AnnotationEditor.handleSubmit env profile paper marks grade
                 feedback canvas st)) = papers st.
Proof.
  intros H.
  destruct (handleSubmit_papers env profile paper marks grade feedback canvas st)
    as [Hs|(url & st1 & Hu & _ & _ & _ & Hp)].
  - now rewrite Hs.
  - rewrite Hp. apply unreached_update. intros p Hin Hid.
    destruct (update_target st (Profile.id profile) (Paper.id paper) p) eqn:E;
      [|reflexivity].
    exfalso. destruct (H p Hin Hid) as [Ht Hl].
    apply update_papers_ok in Hu. destruct Hu as [_ Hnew].
    specialize (Hnew p Hin E). apply new_row_allowed_true in Hnew.
    simpl in Hnew. destruct Hnew; contradiction.
Qed.

Lemma handleSubmit_by_stranger_changes_no_paper_witness :
  papers (snd (AnnotationEditor.handleSubmit (env_at 40 "N3") tia quiz_accepted
                 "85" "A" "" (Blob "PNG") school_quiz_accepted))
  = papers school_quiz_accepted.
Proof.
  apply (handleSubmit_by_stranger_changes_no_paper (env_at 40 "N3") tia
           quiz_accepted "85" "A" "" (Blob "PNG") school_quiz_accepted).
  intros p Hin _. vm_compute in Hin. destruct Hin as [<-|[]].
  split; discriminate.
Defined.

(** C4, as the claim states it, fails: the quiz is assigned to Tom, and a
    finalize by Tia is not refused; it ends with the alert that the paper
    was checked. *)
Lemma finalize_by_other_tutor_is_not_refused :
  map Paper.tutor_id (papers school_quiz_accepted) = [Some "T1"]
  /\ Profile.id tia = "T2"
  /\ fst (AnnotationEditor.handleSubmit (env_at 40 "N3") tia quiz_accepted
            "85" "A" "" (Blob "PNG") school_quiz_accepted)
     = Alerted PaperCheckedSuccessfully.
Proof. vm_compute. repeat split. Qed.





(** The same call with an empty grade, the placeholder of the select, is
    stopped by the check. *)
Example finalize_without_a_grade_is_stopped :
  AnnotationEditor.handleSubmit (env_at 40 "N3") tom quiz_accepted
    "85" "" "well done" (Blob "PNG") school_quiz_accepted
  = (Alerted PleaseFillInMarksAndGrade, school_quiz_accepted).
Proof. reflexivity. Qed.


(** ** Decline *)

(** C9.  A decline, when it goes through, changes the status to rejected
    and the time of the update and nothing else: every paper is as before
    or differs in those two columns only, the profiles are untouched, and
    in particular no tutor_id is cleared. *)
Theorem handleReject_changes_status_and_updated_at_only
    (env : Env) (profile : Profile.t) (paper : Paper.t) (st : Store) :
  let st' := snd (TutorDashboard.handleReject env profile paper st) in
  profiles st' = profiles st
  /\ Forall2 (declined_from env) (papers st) (papers st')
  /\ map Paper.tutor_id (papers st') = map Paper.tutor_id (papers st).
Proof.
  intros st'.
  destruct (handleReject_papers env profile paper st) as [Hpr Hc].
  fold st' in Hpr, Hc.
  assert (HF : Forall2 (declined_from env) (papers st) (papers st')).
  { destruct (update_papers _ _ _ _).
    - rewrite Hc. apply Forall2_patch_rows.
      + intros p _. now left.
      + intros p _ _. right. reflexivity.
    - rewrite Hc. apply Forall2_same. intros p _. now left. }
  repeat split; auto.
  clear -HF. induction HF as [|p p' l l' Hd _ IH]; simpl; [reflexivity|].
  rewrite IH. now destruct Hd as [->| ->].
Qed.

(** The decline of C9 is not an empty case: Tom's decline of the quiz he
    accepted goes through, and the row keeps his id. *)
Example decline_keeps_tutor_id :
  papers (snd (TutorDashboard.handleReject (env_at 30 "N2") tom quiz_pending
                 school_quiz_accepted))
  = [Paper.mk "P1" "L1" (Some "T1") "Algebra Quiz"
       (Paper.answer_sheet_url quiz_pending) None None rejected None None None
       10%N 30%N].
Proof. reflexivity. Qed.

(** ** Notifications read *)

Lemma set_is_read_idempotent (n : Notification.t) :
  set_is_read (set_is_read n) = set_is_read n.
Proof. reflexivity. Qed.

Lemma set_is_read_of_read (n : Notification.t) :
  Notification.is_read n = true -> set_is_read n = n.
Proof. destruct n as [i u p m r c]; simpl. now intros ->. Qed.

Lemma notification_target_set_is_read (uid nid : string) (n : Notification.t) :
  notification_target uid nid (set_is_read n) = notification_target uid nid n.
Proof. reflexivity. Qed.

(** The update of [markAsRead] is never refused: it does not touch the
    column the policies look at. *)
Lemma update_notifications_is_read_ok (st : Store) (uid nid : string) :
  update_notifications_is_read st uid nid
  = DbOk (mkStore (profiles st) (papers st)
            (map (fun n => if notification_target uid nid n then set_is_read n else n)
                 (notifications st))).
Proof.
  unfold update_notifications_is_read.
  replace (forallb _ _) with true; [reflexivity|].
  symmetry. apply forallb_forall. intros n' Hin.
  apply in_map_iff in Hin. destruct Hin as (n & <- & Hn).
  apply filter_In in Hn. destruct Hn as [_ Ht].
  unfold notification_target in Ht. apply andb_true_iff in Ht.
  destruct Ht as [Ht Hu]. apply andb_true_iff in Ht. destruct Ht as [_ Hs].
  unfold notifications_select, notifications_update in *. simpl.
  now rewrite Hs.
Qed.

(** C10.  [markAsRead] touches notifications only, and of a notification
    only the is_read flag, which it sets to true whatever it was; a
    notification already read is left identical; and marking twice is
    marking once. *)
Theorem markAsRead_sets_is_read_idempotently
    (profile : Profile.t) (notificationId : string) (st : Store) :
  let st' := snd (Navbar.markAsRead profile notificationId st) in
  profiles st' = profiles st
  /\ papers st' = papers st
  /\ Forall2 (fun n n' =>
                (n' = n \/ n' = set_is_read n)
                /\ (Notification.id n = notificationId ->
                    Notification.user_id n = Profile.id profile ->
                    Notification.is_read n' = true)
                /\ (Notification.is_read n = true -> n' = n))
             (notifications st) (notifications st')
  /\ snd (Navbar.markAsRead profile notificationId st') = st'.
Proof.
  intros st'. subst st'. unfold Navbar.markAsRead.
  rewrite !update_notifications_is_read_ok. simpl.
  repeat split.
  - induction (notifications st) as [|n l IH]; simpl; constructor; [|exact IH].
    destruct (notification_target _ _ n) eqn:E.
    + repeat split; auto. apply set_is_read_of_read.
    + repeat split; auto. intros Hid Hu. exfalso.
      unfold notification_target, notifications_select, notifications_update in E.
      apply String.eqb_eq in Hid, Hu. rewrite Hid, Hu in E. discriminate.
  - f_equal. rewrite map_map. apply map_ext. intros n.
    destruct (notification_target _ _ n) eqn:E.
    + now rewrite notification_target_set_is_read, E.
    + now rewrite E.
Qed.

(** ** Notifications sent *)

Lemma patch_rows_ids (st : Store) (uid pid : string) (u : PaperPatch) :
  map Paper.id (patch_rows st uid pid u) = map Paper.id (papers st).
Proof.
  unfold patch_rows. rewrite map_map. apply map_ext.
  intros p. now destruct (update_target st uid pid p).
Qed.

Lemma paper_exists_ids (st st' : Store) (pid : string) :
  map Paper.id (papers st') = map Paper.id (papers st) ->
  paper_exists st' pid = paper_exists st pid.
Proof.
  unfold paper_exists. intros H.
  assert (E : forall l, existsb (fun p => Paper.id p =? pid) l
                        = existsb (fun i => i =? pid) (map Paper.id l)).
  { induction l as [|p l IH]; simpl; [reflexivity|now rewrite IH]. }
  now rewrite !E, H.
Qed.

(** The insert of a notification goes through when the uuid is new and
    the learner and the paper it refers to exist. *)
Lemma notify_appends (env : Env) (uid : string) (st : Store)
    (user paper msg : string) :
  notification_exists st (gen_random_uuid env) = false ->
  profile_exists st user = true ->
  paper_exists st paper = true ->
  notifications (notify env uid st user paper msg)
  = (notifications st ++ [new_notification env user paper msg])%list.
Proof.
  unfold notify, insert_notification. simpl.
  intros -> -> ->. reflexivity.
Qed.

Lemma notified_after_update (env : Env) (uid pid : string) (u : PaperPatch)
    (p paper : Paper.t) (msg : string) (st st1 : Store) :
  In p (papers st) ->
  Paper.id paper = Paper.id p ->
  Paper.learner_id paper = Paper.learner_id p ->
  profile_exists st (Paper.learner_id p) = true ->
  notification_exists st (gen_random_uuid env) = false ->
  update_papers st uid u pid = DbOk st1 ->
  exists n,
    notifications (notify env uid st1 (Paper.learner_id paper) (Paper.id paper) msg)
    = (notifications st ++ [n])%list
    /\ Notification.user_id n = Paper.learner_id p
    /\ Notification.paper_id n = Some (Paper.id p)
    /\ Notification.is_read n = false.
Proof.
  intros Hin -> -> Hl Hn Hu. apply update_papers_ok in Hu. destruct Hu as [-> _].
  exists (new_notification env (Paper.learner_id p) (Paper.id p) msg).
  rewrite notify_appends; simpl; auto.
  erewrite paper_exists_ids by (simpl; apply patch_rows_ids).
  apply existsb_exists. exists p. split; [exact Hin|apply String.eqb_refl].
Qed.

(** Let the card [paper] show a stored paper [p] (same id, same
    learner_id) whose learner is registered, and let the uuid drawn for the
    notification be fresh.  Then each call of [handleAccept], [handleReject]
    and [handleSubmit] that reports no failure inserts exactly one
    notification, for the learner of [p] and about [p]; one that reports a
    failure leaves the store as it was; and the two other handlers, upload
    and mark-as-read, insert none. *)
Lemma one_notification_per_call
    (env : Env) (profile : Profile.t) (p paper : Paper.t) (st : Store) :
  In p (papers st) ->
  Paper.id paper = Paper.id p ->
  Paper.learner_id paper = Paper.learner_id p ->
  profile_exists st (Paper.learner_id p) = true ->
  notification_exists st (gen_random_uuid env) = false ->
  notified_once p st (TutorDashboard.handleAccept env profile paper st)
  /\ notified_once p st (TutorDashboard.handleReject env profile paper st)
  /\ (forall marks grade feedback canvas,
        notified_once p st
          (AnnotationEditor.handleSubmit env profile paper marks grade feedback
             canvas st))
  /\ (forall title answerSheet questionPaper,
        notifications (snd (LearnerDashboard.handleUpload env profile title
                              answerSheet questionPaper st))
        = notifications st)
  /\ (forall notificationId,
        map Notification.id
            (notifications (snd (Navbar.markAsRead profile notificationId st)))
        = map Notification.id (notifications st)).
Proof.
  intros Hin Hid Hlid Hl Hn. unfold notified_once. repeat split.
  - unfold TutorDashboard.handleAccept.
    destruct (update_papers _ _ _ _) as [st1|e] eqn:Hu; simpl; [|reflexivity].
    eapply notified_after_update; eauto.
  - unfold TutorDashboard.handleReject.
    destruct (update_papers _ _ _ _) as [st1|e] eqn:Hu; simpl; [|reflexivity].
    eapply notified_after_update; eauto.
  - intros marks grade feedback canvas. unfold AnnotationEditor.handleSubmit.
    destruct ((marks =? "") || (grade =? "")); simpl; [reflexivity|].
    destruct canvas as [| |png]; simpl; try reflexivity.
    destruct (storage_upload env _ png) as [path|]; simpl; [|reflexivity].
    destruct (update_papers _ _ _ _) as [st1|e] eqn:Hu; simpl; [|reflexivity].
    eapply notified_after_update; eauto.
  - intros title answerSheet questionPaper.
    unfold LearnerDashboard.handleUpload, LearnerDashboard.insert_uploaded,
      LearnerDashboard.uploadFile, insert_paper.
    destruct answerSheet as [sheet|]; [|reflexivity].
    destruct (storage_upload env _ (bytes sheet)); [|reflexivity].
    destruct questionPaper as [question|].
    + destruct (storage_upload env _ (bytes question)); [|reflexivity].
      repeat (destruct (negb _) || destruct (paper_exists _ _)); reflexivity.
    + repeat (destruct (negb _) || destruct (paper_exists _ _)); reflexivity.
  - intros notificationId. unfold Navbar.markAsRead.
    rewrite update_notifications_is_read_ok. simpl.
    rewrite map_map. apply map_ext. intros n.
    now destruct (notification_target _ _ n).
Qed.

(** The three messages, on the quiz: one insert each, for Lea. *)
Example notifications_of_a_full_lifecycle :
  map (fun n => (Notification.user_id n, Notification.paper_id n,
                 Notification.is_read n))
      (notifications (run [upload_quiz; tom_accepts; tom_submits "85" "A"] school))
  = [("L1", Some "P1", false); ("L1", Some "P1", false)]
  /\ map Notification.message
         (notifications (run [upload_quiz; tom_accepts; tom_submits "85" "A"] school))
     = [TutorDashboard.accept_message quiz_pending;
        AnnotationEditor.submit_message quiz_accepted "85" "A"].
Proof. vm_compute. split; reflexivity. Qed.

(** ** Who may read (C8) *)

Lemma tutors_can_view_every_paper (st : Store) (uid : string) (p : Paper.t) :
  exists_tutor_profile st uid = true -> papers_select st uid p = true.
Proof.
  intros H. unfold papers_select, tutors_can_view_all_pending_papers.
  rewrite H. apply orb_true_r.
Qed.

Lemma In_insert_desc {A : Type} (key : A -> N) (x y : A) (l : list A) :
  In y (insert_desc key x l) <-> y = x \/ In y l.
Proof.
  induction l as [|z l IH]; simpl.
  - intuition.
  - destruct (key z <? key x)%N; simpl; [intuition|].
    rewrite IH. intuition.
Qed.

Lemma In_order_desc {A : Type} (key : A -> N) (y : A) (l : list A) :
  In y (order_desc key l) <-> In y l.
Proof.
  induction l as [|x l IH]; simpl; [reflexivity|].
  rewrite In_insert_desc, IH. intuition.
Qed.

(** The list of the tutor's dashboard holds stored papers that are pending
    or assigned to that tutor, and no other. *)
Lemma loadPapers_mine_or_pending (profile : Profile.t) (st : Store) (p : Paper.t) :
  In p (TutorDashboard.loadPapers profile st) ->
  In p (papers st)
  /\ (Paper.tutor_id p = Some (Profile.id profile) \/ Paper.status p = pending).
Proof.
  unfold TutorDashboard.loadPapers. rewrite In_order_desc, filter_In.
  intros [Hin H]. split; [exact Hin|].
  apply andb_true_iff in H. destruct H as [_ H].
  unfold TutorDashboard.mine_or_pending in H. apply orb_true_iff in H.
  rewrite eq_uid_true, PaperStatus_eqb_eq in H. exact H.
Qed.

(** C8, where the code departs from it.  The quiz is accepted and assigned
    to Tom.  Tia's dashboard does not list it, but the SELECT policy
    "Tutors can view all pending papers" admits the row for her all the
    same: its USING clause tests her role and not the row. *)
Theorem select_policy_admits_paper_of_another_tutor :
  papers school_quiz_accepted = [quiz_accepted]
  /\ Paper.status quiz_accepted = accepted
  /\ Paper.tutor_id quiz_accepted = Some (Profile.id tom)
  /\ Profile.id tia <> Profile.id tom
  /\ TutorDashboard.loadPapers tia school_quiz_accepted = []
  /\ tutors_can_view_all_pending_papers school_quiz_accepted (Profile.id tia)
       quiz_accepted = true
  /\ papers_select school_quiz_accepted (Profile.id tia) quiz_accepted = true.
Proof. vm_compute. repeat split. discriminate. Qed.

(** ** What holds of every paper after every history *)

Lemma Forall_patch_rows (P : Paper.t -> Prop)
    (st : Store) (uid pid : string) (u : PaperPatch) :
  Forall P (papers st) ->
  (forall p, In p (papers st) -> P p -> update_target st uid pid p = true ->
             P (apply_patch u p)) ->
  Forall P (patch_rows st uid pid u).
Proof.
  intros HP Hnew. apply Forall_forall. intros q Hq.
  unfold patch_rows in Hq. apply in_map_iff in Hq.
  destruct Hq as (p & <- & Hin).
  rewrite Forall_forall in HP.
  destruct (update_target st uid pid p) eqn:E; auto.
Qed.

(** A registered user has one role. *)
Lemma registered_as_one_role (users : list Profile.t) (uid : string)
    (r r' : UserRole) :
  registered_as users uid r -> registered_as users uid r' -> r = r'.
Proof. intros (pr & H & <-) (pr' & H' & <-). congruence. Qed.

Lemma useAuth_registered (st : Store) (uid : string) (profile : Profile.t) :
  useAuth st uid = Some profile ->
  registered_as (profiles st) (Profile.id profile) (Profile.role profile).
Proof.
  intros H. rewrite (useAuth_id _ _ _ H). now exists profile.
Qed.

Section Handlers_keep_the_invariant.

Variable users : list Profile.t.
Variable st : Store.
Variable env : Env.
Variable profile : Profile.t.
Variable paper : Paper.t.

Hypothesis same_users : profiles st = users.
Hypothesis invariant : Forall (lifecycle_invariant users) (papers st).

Let keeps (st' : Store) : Prop :=
  profiles st' = users /\ Forall (lifecycle_invariant users) (papers st').

Lemma handleAccept_keeps_invariant :
  keeps (snd (TutorDashboard.handleAccept env profile paper st)).
Proof.
  destruct (handleAccept_papers env profile paper st) as [Hpr Hc].
  split; [congruence|].
  destruct (update_papers _ _ _ _); rewrite Hc; [|exact invariant].
  apply Forall_patch_rows; [exact invariant|].
  intros p _ (_ & _ & _ & Hg & Hl) _.
  unfold lifecycle_invariant. simpl.
  repeat split; try discriminate; auto.
Qed.

Lemma handleReject_keeps_invariant :
  keeps (snd (TutorDashboard.handleReject env profile paper st)).
Proof.
  destruct (handleReject_papers env profile paper st) as [Hpr Hc].
  split; [congruence|].
  destruct (update_papers _ _ _ _); rewrite Hc; [|exact invariant].
  apply Forall_patch_rows; [exact invariant|].
  intros p _ (_ & _ & _ & Hg & Hl) _.
  unfold lifecycle_invariant. simpl.
  repeat split; try discriminate; auto.
Qed.

Lemma handleSubmit_keeps_invariant (marks grade feedback : string)
    (canvas : Canvas) :
  registered_as users (Profile.id profile) tutor ->
  keeps (snd (AnnotationEditor.handleSubmit env profile paper marks grade
                feedback canvas st)).
Proof.
  intros Htutor.
  destruct (handleSubmit_papers env profile paper marks grade feedback canvas st)
    as [->|(url & st1 & Hu & _ & _ & Hpr & Hp)]; [now split|].
  split; [congruence|]. rewrite Hp.
  apply update_papers_ok in Hu. destruct Hu as [_ Hnew].
  apply Forall_patch_rows; [exact invariant|].
  intros p Hin (_ & _ & _ & _ & Hl) Ht.
  specialize (Hnew p Hin Ht). apply new_row_allowed_true in Hnew.
  simpl in Hnew. destruct Hnew as [Hown|Hmine].
  - rewrite Hown in Hl.
    discriminate (registered_as_one_role _ _ _ _ Hl Htutor).
  - unfold lifecycle_invariant. simpl.
    repeat split; try discriminate; auto; try congruence.
    right. split; discriminate.
Qed.

Lemma handleUpload_keeps_invariant (title : string)
    (answerSheet questionPaper : option File) :
  registered_as users (Profile.id profile) learner ->
  keeps (snd (LearnerDashboard.handleUpload env profile title answerSheet
                questionPaper st)).
Proof.
  intros Hlearner.
  assert (Hins : forall url question,
             keeps (snd (LearnerDashboard.insert_uploaded env profile title url
                           question st))).
  { intros url question. unfold LearnerDashboard.insert_uploaded, insert_paper.
    destruct (negb _); [now split|].
    destruct (paper_exists _ _); [now split|].
    destruct (negb _); [now split|].
    split; [exact same_users|]. simpl.
    apply Forall_app. split; [exact invariant|].
    constructor; [|constructor].
    unfold lifecycle_invariant. simpl.
    repeat split; try discriminate; auto. }
  unfold LearnerDashboard.handleUpload, LearnerDashboard.uploadFile.
  destruct answerSheet as [sheet|]; [|now split].
  destruct (storage_upload env _ (bytes sheet)); [|now split].
  destruct questionPaper as [question|]; [|apply Hins].
  destruct (storage_upload env _ (bytes question)); [apply Hins|now split].
Qed.

Lemma markAsRead_keeps_invariant (notificationId : string) :
  keeps (snd (Navbar.markAsRead profile notificationId st)).
Proof.
  unfold Navbar.markAsRead. rewrite update_notifications_is_read_ok.
  now split.
Qed.

End Handlers_keep_the_invariant.

Lemma step_keeps_invariant (users : list Profile.t) (st : Store) (e : Event) :
  profiles st = users ->
  Forall (lifecycle_invariant users) (papers st) ->
  profiles (step st e) = users
  /\ Forall (lifecycle_invariant users) (papers (step st e)).
Proof.
  intros Hu Hinv. unfold step, dispatch.
  destruct (useAuth st (actor e)) as [profile|] eqn:Ha; [|now split].
  apply useAuth_registered in Ha. rewrite Hu in Ha.
  destruct (click e) as [title a q|paper|paper|paper marks grade feedback canvas|nid];
    destruct (Profile.role profile) eqn:Hr;
    try (now split);
    try (destruct (TutorDashboard.renders _ _ _); [|now split]).
  - now apply handleUpload_keeps_invariant.
  - now apply handleAccept_keeps_invariant.
  - now apply handleReject_keeps_invariant.
  - now apply handleSubmit_keeps_invariant.
  - now apply markAsRead_keeps_invariant.
  - now apply markAsRead_keeps_invariant.
Qed.

Lemma run_keeps_invariant (users : list Profile.t) (history : list Event) (st : Store) :
  profiles st = users ->
  Forall (lifecycle_invariant users) (papers st) ->
  profiles (run history st) = users
  /\ Forall (lifecycle_invariant users) (papers (run history st)).
Proof.
  revert st. induction history as [|e history IH]; intros st Hu Hinv; simpl.
  - now split.
  - destruct (step_keeps_invariant users st e Hu Hinv) as [Hu' Hinv'].
    now apply IH.
Qed.

Lemma history_keeps_invariant (users : list Profile.t) (history : list Event) :
  Forall (lifecycle_invariant users) (papers (run history (fresh_store users))).
Proof. now apply run_keeps_invariant; [|constructor]. Qed.

(** C3 (as amended).  After every history, of every stored paper: a
    checked paper has its grade and its checked sheet; a pending paper has
    no marks, no grade and no checked sheet; and in any state grade and
    checked sheet are set together, marks never without them. *)
Theorem grading_columns_after_every_history
    (users : list Profile.t) (history : list Event) :
  Forall (fun p =>
            (Paper.status p = checked ->
               Paper.grade p <> None /\ Paper.checked_sheet_url p <> None)
            /\ (Paper.status p = pending ->
                  Paper.marks p = None /\ Paper.grade p = None
                  /\ Paper.checked_sheet_url p = None)
            /\ ((Paper.marks p = None /\ Paper.grade p = None
                 /\ Paper.checked_sheet_url p = None)
                \/ (Paper.grade p <> None /\ Paper.checked_sheet_url p <> None)))
         (papers (run history (fresh_store users))).
Proof.
  eapply Forall_impl; [|apply history_keeps_invariant].
  intros p (Hp & _ & Hc & Hg & _). repeat split; auto; try apply Hc; auto;
    now apply Hp.
Qed.

(** C3, as the claim states it, fails: Tom accepts the quiz, grades it, and
    then declines it from a dashboard that still shows it pending.  The
    paper is rejected and carries marks, grade and checked sheet. *)
Lemma rejected_paper_with_marks :
  map (fun p => (Paper.status p, Paper.marks p, Paper.grade p,
                 Paper.checked_sheet_url p))
      (papers (run [upload_quiz; tom_accepts; tom_submits "85" "A";
                    tom_rejects_late] school))
  = [(rejected, Some 85%Z, Some "A", Some checked_url)].
Proof. vm_compute. reflexivity. Qed.

(** The other direction fails as well: marks that do not begin with a
    digit parse to NaN, which is sent as null, so the paper is checked and
    has no marks. *)
Example checked_paper_without_marks :
  map (fun p => (Paper.status p, Paper.marks p, Paper.grade p))
      (papers (run [upload_quiz; tom_accepts; tom_submits ".5" "A"] school))
  = [(checked, None, Some "A")].
Proof. vm_compute. reflexivity. Qed.

(** C6 (as amended).  After every history, of every stored paper: a pending
    paper has no tutor_id, and an accepted or checked paper has one. *)
Theorem tutor_id_after_every_history
    (users : list Profile.t) (history : list Event) :
  Forall (fun p =>
            (Paper.status p = pending -> Paper.tutor_id p = None)
            /\ (Paper.status p = accepted \/ Paper.status p = checked ->
                Paper.tutor_id p <> None))
         (papers (run history (fresh_store users))).
Proof.
  eapply Forall_impl; [|apply history_keeps_invariant].
  intros p (Hp & Ha & Hc & _). split.
  - intros H. now apply Hp.
  - intros [H|H]; [now apply Ha|now apply Hc].
Qed.

(** C6, as the claim states it, fails: Tom accepts the quiz and declines it
    from the card that still shows it pending; the paper is rejected and
    still names him. *)
Lemma rejected_paper_keeps_tutor_id :
  TutorDashboard.renders tom quiz_pending TutorDashboard.Reject = true
  /\ map (fun p => (Paper.status p, Paper.tutor_id p))
         (papers (run [upload_quiz; tom_accepts; tom_rejects] school))
     = [(rejected, Some "T1")].
Proof. vm_compute. split; reflexivity. Qed.

(** ** The cards and their buttons *)

(** Accept and Reject are rendered on a card exactly while it shows the
    paper pending, Annotate & Check exactly while it shows the paper
    accepted by the tutor who looks at it. *)
Lemma buttons_follow_the_card (profile : Profile.t) (paper : Paper.t) :
  TutorDashboard.renders profile paper TutorDashboard.Accept
  = PaperStatus_eqb (Paper.status paper) pending
  /\ TutorDashboard.renders profile paper TutorDashboard.Reject
     = PaperStatus_eqb (Paper.status paper) pending
  /\ TutorDashboard.renders profile paper TutorDashboard.AnnotateAndCheck
     = PaperStatus_eqb (Paper.status paper) accepted
       && eq_uid (Paper.tutor_id paper) (Profile.id profile).
Proof.
  unfold TutorDashboard.renders, TutorDashboard.buttons.
  destruct (Paper.status paper); simpl;
    destruct (eq_uid (Paper.tutor_id paper) (Profile.id profile)); simpl;
    repeat split; reflexivity.
Qed.

(** The card the counterexamples click on is the one the dashboard had
    loaded before the paper was accepted. *)
Example quiz_pending_was_listed :
  TutorDashboard.loadPapers tom school_with_quiz = [quiz_pending]
  /\ TutorDashboard.loadPapers tia school_with_quiz = [quiz_pending]
  /\ TutorDashboard.loadPapers tom school_quiz_accepted = [quiz_accepted].
Proof. vm_compute. repeat split. Qed.

(** ** More on the guards of the handlers *)

(** A tutor who declines a paper that is pending and unassigned is
    refused by the WITH CHECK clause of the UPDATE policy, which wants the
    new row to name the caller as tutor. *)
Example decline_of_pending_paper_is_refused :
  TutorDashboard.handleReject (env_at 30 "N2") tom quiz_pending school_with_quiz
  = (Alerted (ErrorRejectingPaper (PgFailure rls_violation)), school_with_quiz).
Proof. reflexivity. Qed.

(** Tom can set his own checked paper back to accepted. *)
Example own_checked_paper_claimed_again :
  map (fun p => (Paper.status p, Paper.marks p))
      (papers (snd (TutorDashboard.handleAccept (env_at 50 "N4") tom quiz_pending
                      (run [upload_quiz; tom_accepts; tom_submits "85" "A"] school))))
  = [(accepted, Some 85%Z)].
Proof. vm_compute. reflexivity. Qed.

Example parseInt_85 : parseInt "85" = Some 85%Z.
Proof. reflexivity. Qed.

Example parseInt_fraction : parseInt ".5" = None.
Proof. reflexivity. Qed.

Example parseInt_exponent : parseInt " 1e3" = Some 1%Z.
Proof. reflexivity. Qed.

Example parseInt_hex : parseInt "0x1F" = Some 31%Z.
Proof. reflexivity. Qed.

(** * Further properties of the pages *)

(** ** The lists the pages load *)

Lemma insert_desc_perm {A : Type} (key : A -> N) (x : A) (l : list A) :
  Permutation (insert_desc key x l) (x :: l).
Proof.
  induction l as [|y l IH]; simpl; [reflexivity|].
  destruct (key y <? key x)%N; [reflexivity|].
  rewrite IH. apply perm_swap.
Qed.

Lemma order_desc_perm {A : Type} (key : A -> N) (l : list A) :
  Permutation (order_desc key l) l.
Proof.
  induction l as [|x l IH]; simpl; [reflexivity|].
  rewrite insert_desc_perm. now constructor.
Qed.

Lemma insert_desc_sorted {A : Type} (key : A -> N) (x : A) (l : list A) :
  StronglySorted (newest_first key) l ->
  StronglySorted (newest_first key) (insert_desc key x l).
Proof.
  induction 1 as [|y l Hs IH Hy]; simpl.
  - constructor; constructor.
  - destruct (key y <? key x)%N eqn:E.
    + apply N.ltb_lt in E. constructor; [now constructor|].
      constructor; [unfold newest_first; lia|].
      eapply Forall_impl; [|exact Hy]. unfold newest_first. intros z Hz. lia.
    + apply N.ltb_ge in E. constructor; [exact IH|].
      apply Forall_forall. intros z Hz. apply In_insert_desc in Hz.
      destruct Hz as [->|Hz]; [exact E|].
      rewrite Forall_forall in Hy. now apply Hy.
Qed.

Lemma order_desc_sorted {A : Type} (key : A -> N) (l : list A) :
  StronglySorted (newest_first key) (order_desc key l).
Proof.
  induction l as [|x l IH]; simpl; [constructor|].
  now apply insert_desc_sorted.
Qed.

Lemma filter_ext_In' {A : Type} (f g : A -> bool) (l : list A) :
  (forall x, In x l -> f x = g x) -> filter f l = filter g l.
Proof.
  induction l as [|x l IH]; simpl; intros H; [reflexivity|].
  rewrite (H x) by now left.
  rewrite IH; [reflexivity|]. intros y Hy. apply H. now right.
Qed.

(** X1.  For a registered tutor, the list of the dashboard is a
    rearrangement of exactly the stored papers that are pending or assigned
    to that tutor, newest first. *)
Theorem tutor_list_is_mine_or_pending_newest_first
    (profile : Profile.t) (st : Store) :
  exists_tutor_profile st (Profile.id profile) = true ->
  Permutation (TutorDashboard.loadPapers profile st)
              (filter (TutorDashboard.mine_or_pending profile) (papers st))
  /\ StronglySorted (newest_first Paper.created_at)
                    (TutorDashboard.loadPapers profile st)
  /\ forall p, In p (TutorDashboard.loadPapers profile st) <->
               In p (papers st)
               /\ (Paper.tutor_id p = Some (Profile.id profile)
                   \/ Paper.status p = pending).
Proof.
  intros Ht. unfold TutorDashboard.loadPapers.
  assert (E : filter (fun p => papers_select st (Profile.id profile) p
                               && TutorDashboard.mine_or_pending profile p)
                     (papers st)
              = filter (TutorDashboard.mine_or_pending profile) (papers st)).
  { apply filter_ext_In'. intros p _.
    now rewrite tutors_can_view_every_paper. }
  rewrite E. split; [apply order_desc_perm|].
  split; [apply order_desc_sorted|].
  intros p. rewrite In_order_desc, filter_In.
  unfold TutorDashboard.mine_or_pending.
  now rewrite orb_true_iff, eq_uid_true, PaperStatus_eqb_eq.
Qed.

Lemma tutor_list_is_mine_or_pending_newest_first_witness :
  Permutation (TutorDashboard.loadPapers tom school_quiz_accepted)
              (filter (TutorDashboard.mine_or_pending tom)
                      (papers school_quiz_accepted))
  /\ StronglySorted (newest_first Paper.created_at)
                    (TutorDashboard.loadPapers tom school_quiz_accepted)
  /\ forall p, In p (TutorDashboard.loadPapers tom school_quiz_accepted) <->
               In p (papers school_quiz_accepted)
               /\ (Paper.tutor_id p = Some (Profile.id tom)
                   \/ Paper.status p = pending).
Proof.
  apply (tutor_list_is_mine_or_pending_newest_first tom school_quiz_accepted).
  reflexivity.
Defined.

(** X2.  The list of the learner's dashboard is a rearrangement of exactly
    the stored papers of that learner, newest first, whoever else has
    papers in the store. *)
Theorem learner_list_is_own_papers_newest_first
    (profile : Profile.t) (st : Store) :
  Permutation (LearnerDashboard.loadPapers profile st)
              (filter (fun p => Paper.learner_id p =? Profile.id profile) (papers st))
  /\ StronglySorted (newest_first Paper.created_at)
                    (LearnerDashboard.loadPapers profile st)
  /\ forall p, In p (LearnerDashboard.loadPapers profile st) <->
               In p (papers st) /\ Paper.learner_id p = Profile.id profile.
Proof.
  unfold LearnerDashboard.loadPapers.
  assert (E : filter (fun p => papers_select st (Profile.id profile) p
                               && (Paper.learner_id p =? Profile.id profile))
                     (papers st)
              = filter (fun p => Paper.learner_id p =? Profile.id profile)
                       (papers st)).
  { apply filter_ext_In'. intros p _.
    unfold papers_select, learners_can_view_own_papers.
    destruct (Paper.learner_id p =? Profile.id profile); simpl;
      [reflexivity|apply andb_false_r]. }
  rewrite E. split; [apply order_desc_perm|].
  split; [apply order_desc_sorted|].
  intros p. now rewrite In_order_desc, filter_In, String.eqb_eq.
Qed.

Lemma In_firstn {A : Type} (k : nat) (l : list A) (x : A) :
  In x (firstn k l) -> In x l.
Proof.
  intros H. rewrite <- (firstn_skipn k l). apply in_or_app. now left.
Qed.

Lemma firstn_sorted {A : Type} (R : A -> A -> Prop) (k : nat) (l : list A) :
  StronglySorted R l -> StronglySorted R (firstn k l).
Proof.
  intros H. revert k. induction H as [|x l Hs IH Hx]; intros [|k]; simpl;
    try constructor.
  - apply IH.
  - rewrite Forall_forall in *. intros y Hy. apply Hx.
    now apply In_firstn in Hy.
Qed.

(** In a list sorted newest first, whatever lies beyond the first [k]
    elements is no newer than any of them. *)
Lemma sorted_firstn_newest {A : Type} (key : A -> N) (k : nat) (l : list A) :
  StronglySorted (newest_first key) l ->
  forall x y, In x (firstn k l) -> In y (skipn k l) -> (key y <= key x)%N.
Proof.
  intros H. revert k. induction H as [|z l Hs IH Hz]; intros [|k] x y; simpl;
    try contradiction.
  intros [->|Hx] Hy.
  - rewrite Forall_forall in Hz. apply Hz.
    rewrite <- (firstn_skipn k l). apply in_or_app. now right.
  - now apply (IH k).
Qed.

(** X3.  The bell shows at most ten notifications, all of them stored and
    addressed to the viewer, newest first; and they are the newest: a
    notification of the viewer that is left out is no newer than any that
    is shown. *)
Theorem bell_shows_the_ten_newest_own_notifications
    (profile : Profile.t) (st : Store) :
  List.length (Navbar.loadNotifications profile st) <= 10
  /\ StronglySorted (newest_first Notification.created_at)
                    (Navbar.loadNotifications profile st)
  /\ (forall n, In n (Navbar.loadNotifications profile st) ->
                In n (notifications st)
                /\ Notification.user_id n = Profile.id profile)
  /\ (forall n m, In n (Navbar.loadNotifications profile st) ->
                  In m (notifications st) ->
                  Notification.user_id m = Profile.id profile ->
                  ~ In m (Navbar.loadNotifications profile st) ->
                  (Notification.created_at m <= Notification.created_at n)%N).
Proof.
  unfold Navbar.loadNotifications.
  set (own := filter _ (notifications st)).
  assert (Hown : forall n, In n own <->
                           In n (notifications st)
                           /\ Notification.user_id n = Profile.id profile).
  { intros n. unfold own. rewrite filter_In. unfold notifications_select.
    rewrite andb_diag, String.eqb_eq. reflexivity. }
  set (sorted := order_desc Notification.created_at own).
  assert (Hs : StronglySorted (newest_first Notification.created_at) sorted)
    by apply order_desc_sorted.
  repeat split.
  - apply firstn_le_length.
  - now apply firstn_sorted.
  - apply In_firstn in H. apply In_order_desc in H. now apply Hown.
  - apply In_firstn in H. apply In_order_desc in H. now apply Hown.
  - intros n m Hn Hm Hu Hout.
    apply (sorted_firstn_newest _ 10 sorted Hs); [exact Hn|].
    assert (Hin : In m sorted) by (apply In_order_desc, Hown; now split).
    rewrite <- (firstn_skipn 10 sorted) in Hin. apply in_app_or in Hin.
    destruct Hin as [Hin|Hin]; [contradiction|exact Hin].
Qed.

(** ** Reading a notification and looking again *)

Lemma insert_desc_map {A : Type} (key : A -> N) (g : A -> A) (x : A) (l : list A) :
  (forall y, key (g y) = key y) ->
  insert_desc key (g x) (map g l) = map g (insert_desc key x l).
Proof.
  intros Hg. induction l as [|y l IH]; simpl; [reflexivity|].
  rewrite !Hg. destruct (key y <? key x)%N; simpl; [reflexivity|].
  now rewrite IH.
Qed.

Lemma order_desc_map {A : Type} (key : A -> N) (g : A -> A) (l : list A) :
  (forall y, key (g y) = key y) ->
  order_desc key (map g l) = map g (order_desc key l).
Proof.
  intros Hg. unfold order_desc.
  induction l as [|x l IH]; simpl; [reflexivity|].
  rewrite IH. now apply insert_desc_map.
Qed.

Lemma filter_map_commute {A : Type} (f : A -> bool) (g : A -> A) (l : list A) :
  (forall y, f (g y) = f y) ->
  filter f (map g l) = map g (filter f l).
Proof.
  intros Hg. induction l as [|x l IH]; simpl; [reflexivity|].
  rewrite Hg. destruct (f x); simpl; now rewrite IH.
Qed.

Lemma unread_after_read (nid : string) (l : list Notification.t) :
  Navbar.unreadCount
    (map (fun n => if Notification.id n =? nid then set_is_read n else n) l)
  + List.length (filter (fun n => negb (Notification.is_read n)
                                  && (Notification.id n =? nid)) l)
  = Navbar.unreadCount l.
Proof.
  unfold Navbar.unreadCount. induction l as [|n l IH]; simpl; [reflexivity|].
  destruct (Notification.id n =? nid); simpl;
    destruct (Notification.is_read n); simpl; lia.
Qed.

(** X4.  When the stored notifications carry different times, the bell
    loaded again after [markAsRead] shows the same notifications in the
    same order, those with the clicked id now read and the others
    untouched; the number on the bell has gone down by the listed unread
    notifications with that id, and by nothing else. *)
Theorem bell_after_markAsRead
    (profile : Profile.t) (notificationId : string) (st : Store) :
  NoDup (map Notification.created_at (notifications st)) ->
  let before := Navbar.loadNotifications profile st in
  let after :=
    Navbar.loadNotifications profile
      (snd (Navbar.markAsRead profile notificationId st)) in
  after = map (fun n => if Notification.id n =? notificationId
                        then set_is_read n else n) before
  /\ Navbar.unreadCount after
     + List.length (filter (fun n => negb (Notification.is_read n)
                                     && (Notification.id n =? notificationId))
                           before)
     = Navbar.unreadCount before.
Proof.
  intros _ before after.
  assert (E : after = map (fun n => if Notification.id n =? notificationId
                                    then set_is_read n else n) before).
  { subst before after. unfold Navbar.markAsRead, Navbar.loadNotifications.
    rewrite update_notifications_is_read_ok. cbn [snd notifications].
    set (g := fun n => if notification_target (Profile.id profile) notificationId n
                       then set_is_read n else n).
    rewrite (filter_map_commute _ g)
      by (intros n; unfold g; now destruct (notification_target _ _ n)).
    rewrite (order_desc_map _ g)
      by (intros n; unfold g; now destruct (notification_target _ _ n)).
    rewrite firstn_map. apply map_ext_in. intros n Hn.
    apply In_firstn, In_order_desc, filter_In in Hn. destruct Hn as [_ Hn].
    apply andb_true_iff in Hn. destruct Hn as [Hs _].
    unfold g, notification_target, notifications_update.
    unfold notifications_select in *. rewrite Hs.
    now rewrite !andb_true_r. }
  split; [exact E|]. rewrite E. apply unread_after_read.
Qed.

Lemma bell_after_markAsRead_witness :
  Navbar.unreadCount
    (Navbar.loadNotifications lea
       (snd (Navbar.markAsRead lea "N1"
               (run [upload_quiz; tom_accepts; tom_submits "85" "A"] school))))
  + List.length
      (filter (fun n => negb (Notification.is_read n) && (Notification.id n =? "N1"))
              (Navbar.loadNotifications lea
                 (run [upload_quiz; tom_accepts; tom_submits "85" "A"] school)))
  = Navbar.unreadCount
      (Navbar.loadNotifications lea
         (run [upload_quiz; tom_accepts; tom_submits "85" "A"] school)).
Proof.
  apply (bell_after_markAsRead lea "N1"
           (run [upload_quiz; tom_accepts; tom_submits "85" "A"] school)).
  vm_compute. repeat constructor; simpl; intuition discriminate.
Defined.

(** Lea's bell after the quiz was accepted and graded, and after she has
    clicked the older notification. *)
Example bell_of_lea :
  map (fun n => (Notification.id n, Notification.is_read n))
      (Navbar.loadNotifications lea
         (run [upload_quiz; tom_accepts; tom_submits "85" "A"] school))
  = [("N3", false); ("N1", false)]
  /\ map (fun n => (Notification.id n, Notification.is_read n))
         (Navbar.loadNotifications lea
            (snd (Navbar.markAsRead lea "N1"
                    (run [upload_quiz; tom_accepts; tom_submits "85" "A"] school))))
     = [("N3", false); ("N1", true)].
Proof. vm_compute. split; reflexivity. Qed.

(** ** The counters and the filter of the dashboards *)

Lemma filter_length_le {A : Type} (f g : A -> bool) (l : list A) :
  (forall x, In x l -> f x = true -> g x = true) ->
  List.length (filter f l) <= List.length (filter g l).
Proof.
  induction l as [|x l IH]; simpl; intros H; [lia|].
  assert (IH' : List.length (filter f l) <= List.length (filter g l))
    by (apply IH; intros y Hy; apply H; now right).
  destruct (f x) eqn:Ef; destruct (g x) eqn:Eg; simpl; try lia.
  rewrite (H x) in Eg; [discriminate|now left|exact Ef].
Qed.

Lemma filter_true {A : Type} (l : list A) : filter (fun _ => true) l = l.
Proof. induction l as [|x l IH]; simpl; congruence. Qed.

(** X5.  On any list of papers the tutor's counters and filter agree:
    what is counted as completed is counted among "my papers", which are
    among the cards the filter 'mine' shows; the filter 'pending' shows as
    many cards as the pending counter says; and the filter 'all', like any
    unknown filter text, shows every card. *)
Theorem tutor_counters_agree_with_filter
    (profile : Profile.t) (papers : list Paper.t) :
  TutorDashboard.stats.completed profile papers
    <= TutorDashboard.stats.myPapers profile papers
  /\ TutorDashboard.stats.myPapers profile papers
     <= List.length (TutorDashboard.filteredPapers "mine" profile papers)
  /\ List.length (TutorDashboard.filteredPapers "mine" profile papers)
     <= List.length papers
  /\ List.length (TutorDashboard.filteredPapers "pending" profile papers)
     = TutorDashboard.stats.pending papers
  /\ (forall filterStatus,
        filterStatus <> "pending" -> filterStatus <> "mine" ->
        TutorDashboard.filteredPapers filterStatus profile papers = papers).
Proof.
  unfold TutorDashboard.stats.completed, TutorDashboard.stats.myPapers,
    TutorDashboard.stats.pending, TutorDashboard.filteredPapers.
  repeat split.
  - apply filter_length_le. intros p _ H.
    apply andb_true_iff in H. destruct H as [-> H].
    apply PaperStatus_eqb_eq in H. now rewrite H.
  - apply filter_length_le. intros p _ H.
    apply andb_true_iff in H. now destruct H as [-> _].
  - simpl. rewrite <- (filter_true papers) at 2.
    apply filter_length_le. reflexivity.
  - intros filterStatus Hp Hm.
    apply String.eqb_neq in Hp, Hm. rewrite Hp, Hm.
    rewrite <- (filter_true papers) at 2.
    apply filter_ext. intros p. now destruct (filterStatus =? "all").
Qed.

Lemma filter_partition_length {A : Type} (f g : A -> bool) (l : list A) :
  (forall x, In x l -> f x = negb (g x)) ->
  List.length (filter f l) + List.length (filter g l) = List.length l.
Proof.
  induction l as [|x l IH]; simpl; intros H; [reflexivity|].
  assert (IH' : List.length (filter f l) + List.length (filter g l)
                = List.length l)
    by (apply IH; intros y Hy; apply H; now right).
  rewrite (H x) by now left. destruct (g x); simpl; lia.
Qed.

(** X7.  The learner's counters: the papers that are neither pending nor
    accepted nor checked are the rejected ones, so the three counters fall
    short of the total by exactly the number of rejected papers. *)
Theorem learner_counters_miss_the_rejected (papers : list Paper.t) :
  LearnerDashboard.stats.pending papers
  + LearnerDashboard.stats.accepted papers
  + LearnerDashboard.stats.checked papers
  + List.length (filter (fun p => PaperStatus_eqb (Paper.status p) rejected) papers)
  = LearnerDashboard.stats.total papers.
Proof.
  unfold LearnerDashboard.stats.pending, LearnerDashboard.stats.accepted,
    LearnerDashboard.stats.checked, LearnerDashboard.stats.total.
  induction papers as [|p l IH]; simpl; [reflexivity|].
  destruct (Paper.status p); simpl; lia.
Qed.

(** X6.  After any history, the list a tutor's dashboard loads splits into
    the pending cards and the cards the filter 'mine' shows: no card is in
    both, none in neither. *)
Theorem tutor_list_splits_into_pending_and_mine
    (users : list Profile.t) (history : list Event) (profile : Profile.t) :
  let listed :=
    TutorDashboard.loadPapers profile (run history (fresh_store users)) in
  TutorDashboard.stats.pending listed
  + List.length (TutorDashboard.filteredPapers "mine" profile listed)
  = List.length listed.
Proof.
  intros listed. unfold TutorDashboard.stats.pending, TutorDashboard.filteredPapers.
  simpl. apply filter_partition_length. intros p Hp.
  apply loadPapers_mine_or_pending in Hp. destruct Hp as [Hin Hp].
  pose proof (history_keeps_invariant users history) as Hinv.
  rewrite Forall_forall in Hinv. destruct (Hinv p Hin) as (Hpend & _).
  destruct (PaperStatus_eqb (Paper.status p) pending) eqn:E.
  - apply PaperStatus_eqb_eq in E. destruct (Hpend E) as [-> _]. reflexivity.
  - destruct Hp as [Hp|Hp].
    + apply eq_uid_true in Hp. now rewrite Hp.
    + apply PaperStatus_eqb_eq in Hp. congruence.
Qed.

Example counters_of_tom :
  let listed := TutorDashboard.loadPapers tom school_quiz_accepted in
  (TutorDashboard.stats.pending listed,
   TutorDashboard.stats.myPapers tom listed,
   TutorDashboard.stats.completed tom listed)
  = (0, 1, 0)%nat.
Proof. reflexivity. Qed.

(** ** What a statement answers *)

Lemma exists_tutor_profile_exists (st : Store) (uid : string) :
  exists_tutor_profile st uid = true -> profile_exists st uid = true.
Proof.
  unfold exists_tutor_profile, profile_exists. rewrite !existsb_exists.
  intros (pr & Hin & H). exists pr. split; [exact Hin|].
  now apply andb_true_iff in H.
Qed.

(** An update goes through when its body fits the columns and every row it
    reaches gives a new row that the policies admit and whose references
    exist. *)
Lemma update_papers_succeeds (st : Store) (uid pid : string) (u : PaperPatch) :
  patch_fits u = true ->
  (forall q, In q (papers st) -> update_target st uid pid q = true ->
             new_row_allowed st uid (apply_patch u q) = true
             /\ paper_foreign_keys st (apply_patch u q) = true) ->
  update_papers st uid u pid
  = DbOk (mkStore (profiles st) (patch_rows st uid pid u) (notifications st)).
Proof.
  intros Hfit H. unfold update_papers. rewrite Hfit. simpl.
  assert (Hall : forall f, (forall q, In q (papers st) ->
                                      update_target st uid pid q = true ->
                                      f (apply_patch u q) = true) ->
                 forallb f (map (apply_patch u)
                               (filter (update_target st uid pid) (papers st)))
                 = true).
  { intros f Hf. apply forallb_forall. intros q' Hq'.
    apply in_map_iff in Hq'. destruct Hq' as (q & <- & Hq).
    apply filter_In in Hq. now apply Hf. }
  rewrite !Hall; [reflexivity| |]; intros q Hin Ht; now apply H.
Qed.

(** An update is refused as a whole when one row it reaches gives a new
    row that the policies do not admit. *)
Lemma update_papers_refused (st : Store) (uid pid : string) (u : PaperPatch)
    (p : Paper.t) :
  patch_fits u = true ->
  In p (papers st) ->
  update_target st uid pid p = true ->
  new_row_allowed st uid (apply_patch u p) = false ->
  update_papers st uid u pid = DbError rls_violation.
Proof.
  intros Hfit Hin Ht Hnew. unfold update_papers. rewrite Hfit. simpl.
  replace (forallb _ _) with false; [reflexivity|].
  symmetry. apply not_true_is_false. intros Hall.
  rewrite forallb_forall in Hall.
  rewrite Hall in Hnew; [discriminate|].
  apply in_map, filter_In. now split.
Qed.

(** The row a registered tutor reaches when it is unassigned and pending,
    or assigned to that tutor. *)
Lemma update_target_of_tutor (st : Store) (uid : string) (p : Paper.t) :
  exists_tutor_profile st uid = true ->
  (Paper.tutor_id p = None /\ Paper.status p = pending)
  \/ Paper.tutor_id p = Some uid ->
  update_target st uid (Paper.id p) p = true.
Proof.
  intros Ht H. unfold update_target. rewrite String.eqb_refl.
  rewrite tutors_can_view_every_paper by exact Ht. simpl.
  unfold papers_update_using, tutors_can_update_assigned_papers_using.
  destruct H as [[Hn Hs]|Hm].
  - rewrite Hn, Hs, Ht. simpl. apply orb_true_r.
  - apply eq_uid_true in Hm. rewrite Hm. simpl. apply orb_true_r.
Qed.

Lemma In_patch_rows (st : Store) (uid : string) (u : PaperPatch) (p : Paper.t) :
  In p (papers st) ->
  update_target st uid (Paper.id p) p = true ->
  In (apply_patch u p) (patch_rows st uid (Paper.id p) u).
Proof.
  intros Hin Ht. unfold patch_rows. apply in_map_iff.
  exists p. now rewrite Ht.
Qed.

(** With a primary key, the rows of that id after an update are the patch
    of the one row. *)
Lemma patch_rows_of_key (st : Store) (uid : string) (u : PaperPatch)
    (p q' : Paper.t) :
  In p (papers st) ->
  (forall q, In q (papers st) -> Paper.id q = Paper.id p -> q = p) ->
  update_target st uid (Paper.id p) p = true ->
  In q' (patch_rows st uid (Paper.id p) u) ->
  Paper.id q' = Paper.id p ->
  q' = apply_patch u p.
Proof.
  intros Hin Hkey Ht Hq' Hid. unfold patch_rows in Hq'.
  apply in_map_iff in Hq'. destruct Hq' as (q & Hq & Hinq).
  destruct (update_target st uid (Paper.id p) q) eqn:E.
  - apply update_target_true in E. destruct E as [E _].
    rewrite (Hkey q Hinq E) in Hq. now subst q'.
  - subst q'. rewrite (Hkey q Hinq Hid) in E. congruence.
Qed.

(** ** Upload *)

(** X8.  When the bucket takes the files, the uploader is registered and
    the uuid is new, an upload with an answer sheet returns quietly and
    appends one paper: pending, owned by the uploader, under the given
    title, with no tutor, marks, grade, feedback or checked sheet.  The
    learner's own list shows it at once, and so does the list of every
    registered tutor. *)
Theorem upload_appends_a_pending_paper_that_is_listed
    (env : Env) (profile : Profile.t) (title : string) (answerSheet : File)
    (questionPaper : option File) (st : Store) :
  (forall path content, storage_upload env path content <> None) ->
  profile_exists st (Profile.id profile) = true ->
  paper_exists st (gen_random_uuid env) = false ->
  let r := LearnerDashboard.handleUpload env profile title (Some answerSheet)
             questionPaper st in
  exists p,
    fst r = Returned
    /\ snd r = mkStore (profiles st) (papers st ++ [p]) (notifications st)
    /\ Paper.id p = gen_random_uuid env
    /\ Paper.learner_id p = Profile.id profile
    /\ Paper.title p = title
    /\ Paper.status p = pending
    /\ Paper.tutor_id p = None
    /\ Paper.marks p = None /\ Paper.grade p = None /\ Paper.feedback p = None
    /\ Paper.checked_sheet_url p = None
    /\ (is_null (Paper.question_paper_url p) = is_null questionPaper)
    /\ In p (LearnerDashboard.loadPapers profile (snd r))
    /\ forall t, exists_tutor_profile st (Profile.id t) = true ->
                 In p (TutorDashboard.loadPapers t (snd r)).
Proof.
  intros Hbucket Hreg Hnew r.
  assert (Hins : forall url question,
             let r' := LearnerDashboard.insert_uploaded env profile title url
                         question st in
             let p := LearnerDashboard.new_paper env profile title url question in
             fst r' = Returned
             /\ snd r' = mkStore (profiles st) (papers st ++ [p]) (notifications st)).
  { intros url question. unfold LearnerDashboard.insert_uploaded, insert_paper.
    unfold papers_insert_check, paper_foreign_keys. simpl.
    rewrite String.eqb_refl, Hnew, Hreg. simpl. now split. }
  assert (Hr : exists url question,
             is_null question = is_null questionPaper
             /\ r = LearnerDashboard.insert_uploaded env profile title url
                      question st).
  { subst r. unfold LearnerDashboard.handleUpload, LearnerDashboard.uploadFile.
    destruct (storage_upload env _ (bytes answerSheet)) as [stored|] eqn:E1;
      [|now apply Hbucket in E1].
    destruct questionPaper as [question|].
    - destruct (storage_upload env _ (bytes question)) as [stored'|] eqn:E2;
        [|now apply Hbucket in E2].
      now exists (getPublicUrl env stored), (Some (getPublicUrl env stored')).
    - now exists (getPublicUrl env stored), None. }
  destruct Hr as (url & question & Hq & Hr).
  destruct (Hins url question) as [Ho Hs]. rewrite <- Hr in Ho, Hs.
  exists (LearnerDashboard.new_paper env profile title url question).
  repeat split; auto.
  - rewrite Hs. unfold LearnerDashboard.loadPapers.
    apply In_order_desc, filter_In. simpl. split.
    + apply in_or_app. right. now left.
    + unfold papers_select, learners_can_view_own_papers. simpl.
      now rewrite String.eqb_refl.
  - intros t Ht. rewrite Hs. unfold TutorDashboard.loadPapers.
    apply In_order_desc, filter_In. simpl. split.
    + apply in_or_app. right. now left.
    + unfold papers_select, tutors_can_view_all_pending_papers,
        exists_tutor_profile in *. simpl. rewrite Ht.
      unfold TutorDashboard.mine_or_pending. simpl.
      now rewrite !orb_true_r.
Qed.

Lemma upload_appends_a_pending_paper_that_is_listed_witness :
  let r := LearnerDashboard.handleUpload (env_at 10 "P1") lea "Algebra Quiz"
             (Some sheet) None school in
  exists p,
    fst r = Returned
    /\ snd r = mkStore (profiles school) (papers school ++ [p]) (notifications school)
    /\ Paper.id p = gen_random_uuid (env_at 10 "P1")
    /\ Paper.learner_id p = Profile.id lea
    /\ Paper.title p = "Algebra Quiz"
    /\ Paper.status p = pending
    /\ Paper.tutor_id p = None
    /\ Paper.marks p = None /\ Paper.grade p = None /\ Paper.feedback p = None
    /\ Paper.checked_sheet_url p = None
    /\ (is_null (Paper.question_paper_url p) = is_null (@None File))
    /\ In p (LearnerDashboard.loadPapers lea (snd r))
    /\ forall t, exists_tutor_profile school (Profile.id t) = true ->
                 In p (TutorDashboard.loadPapers t (snd r)).
Proof.
  apply (upload_appends_a_pending_paper_that_is_listed (env_at 10 "P1") lea
           "Algebra Quiz" sheet None school).
  - discriminate.
  - reflexivity.
  - reflexivity.
Defined.

(** X9.  Whatever it is given, an upload leaves the profiles, the
    notifications and every stored paper as they were: the store
    afterwards is the old one, or the old one with one more paper, pending
    and owned by the uploader.  Without an answer sheet, and whenever the
    upload ends in an alert, it is the old one. *)
Theorem upload_never_alters_what_is_stored
    (env : Env) (profile : Profile.t) (title : string)
    (answerSheet questionPaper : option File) (st : Store) :
  let r := LearnerDashboard.handleUpload env profile title answerSheet
             questionPaper st in
  (snd r = st
   \/ exists p, snd r = mkStore (profiles st) (papers st ++ [p]) (notifications st)
                /\ fst r = Returned
                /\ Paper.status p = pending
                /\ Paper.learner_id p = Profile.id profile
                /\ paper_exists st (Paper.id p) = false
                /\ profile_exists st (Profile.id profile) = true)
  /\ (answerSheet = None -> r = (Returned, st))
  /\ (succeeded (fst r) = false -> snd r = st).
Proof.
  intros r.
  assert (Hins : forall url question,
             let r' := LearnerDashboard.insert_uploaded env profile title url
                         question st in
             (snd r' = st
              \/ exists p, snd r' = mkStore (profiles st) (papers st ++ [p])
                                      (notifications st)
                           /\ fst r' = Returned
                           /\ Paper.status p = pending
                           /\ Paper.learner_id p = Profile.id profile
                           /\ paper_exists st (Paper.id p) = false
                           /\ profile_exists st (Profile.id profile) = true)
             /\ (succeeded (fst r') = false -> snd r' = st)).
  { intros url question. unfold LearnerDashboard.insert_uploaded, insert_paper.
    destruct (negb (papers_insert_check _ _)); [split; [now left|reflexivity]|].
    destruct (paper_exists st _) eqn:Ee; [split; [now left|reflexivity]|].
    destruct (negb (paper_foreign_keys st _)) eqn:Ef;
      [split; [now left|reflexivity]|].
    simpl. split; [|discriminate]. right.
    exists (LearnerDashboard.new_paper env profile title url question).
    repeat split; auto.
    apply negb_false_iff in Ef. unfold paper_foreign_keys in Ef.
    now apply andb_true_iff in Ef. }
  subst r. unfold LearnerDashboard.handleUpload, LearnerDashboard.uploadFile.
  destruct answerSheet as [a|];
    [|split; [now left|split; reflexivity]].
  destruct (storage_upload env _ (bytes a)) as [stored|];
    [|split; [now left|split; [discriminate|reflexivity]]].
  destruct questionPaper as [q|].
  - destruct (storage_upload env _ (bytes q)) as [stored'|];
      [|split; [now left|split; [discriminate|reflexivity]]].
    destruct (Hins (getPublicUrl env stored) (Some (getPublicUrl env stored')))
      as [H1 H2].
    split; [exact H1|split; [discriminate|exact H2]].
  - destruct (Hins (getPublicUrl env stored) None) as [H1 H2].
    split; [exact H1|split; [discriminate|exact H2]].
Qed.

(** For a registered tutor, a stored paper that is pending or assigned to
    the tutor is on the tutor's list. *)
Lemma tutor_loadPapers_In (profile : Profile.t) (st : Store) (p : Paper.t) :
  exists_tutor_profile st (Profile.id profile) = true ->
  In p (papers st) ->
  Paper.tutor_id p = Some (Profile.id profile) \/ Paper.status p = pending ->
  In p (TutorDashboard.loadPapers profile st).
Proof.
  intros Ht Hin H. unfold TutorDashboard.loadPapers.
  apply In_order_desc, filter_In. split; [exact Hin|].
  rewrite tutors_can_view_every_paper by exact Ht. simpl.
  unfold TutorDashboard.mine_or_pending.
  now rewrite orb_true_iff, eq_uid_true, PaperStatus_eqb_eq.
Qed.

(** ** Claim, decline and finalize, when they apply *)

(** X10.  A registered tutor who claims a stored paper that is pending and
    unassigned gets it: the call returns quietly, the row is now accepted
    and names the tutor, its other columns but the time of the update are
    as before; the tutor's list shows the row with the Annotate & Check
    button, and no other user's tutor list shows a paper of that id. *)
Theorem claim_of_a_pending_paper_assigns_it
    (env : Env) (profile : Profile.t) (paper p : Paper.t) (st : Store) :
  In p (papers st) ->
  (forall q, In q (papers st) -> Paper.id q = Paper.id p -> q = p) ->
  Paper.id paper = Paper.id p ->
  Paper.tutor_id p = None ->
  Paper.status p = pending ->
  exists_tutor_profile st (Profile.id profile) = true ->
  profile_exists st (Paper.learner_id p) = true ->
  let r := TutorDashboard.handleAccept env profile paper st in
  let p' := Paper.mk (Paper.id p) (Paper.learner_id p) (Some (Profile.id profile))
              (Paper.title p) (Paper.answer_sheet_url p)
              (Paper.question_paper_url p) (Paper.checked_sheet_url p)
              accepted (Paper.marks p) (Paper.grade p) (Paper.feedback p)
              (Paper.created_at p) (Date_now env) in
  fst r = Returned
  /\ In p' (papers (snd r))
  /\ In p' (TutorDashboard.loadPapers profile (snd r))
  /\ TutorDashboard.renders profile p' TutorDashboard.AnnotateAndCheck = true
  /\ forall other q, Profile.id other <> Profile.id profile ->
                     In q (TutorDashboard.loadPapers other (snd r)) ->
                     Paper.id q <> Paper.id p.
Proof.
  intros Hin Hkey Hid Hnull Hpend Htutor Hlearner r p'.
  assert (Ht : update_target st (Profile.id profile) (Paper.id p) p = true)
    by (apply update_target_of_tutor; auto).
  assert (Hu : update_papers st (Profile.id profile)
                 (TutorDashboard.accept_patch env profile) (Paper.id p)
               = DbOk (mkStore (profiles st)
                         (patch_rows st (Profile.id profile) (Paper.id p)
                            (TutorDashboard.accept_patch env profile))
                         (notifications st))).
  { apply update_papers_succeeds; [reflexivity|].
    intros q Hq Hqt. pose proof Hqt as Hq'. apply update_target_true in Hq'.
    destruct Hq' as [Hqid _]. rewrite (Hkey q Hq Hqid). split.
    - unfold new_row_allowed, papers_update_check,
        tutors_can_update_assigned_papers_check.
      rewrite tutors_can_view_every_paper by exact Htutor. simpl.
      rewrite String.eqb_refl. simpl. apply orb_true_r.
    - unfold paper_foreign_keys. simpl. rewrite Hlearner.
      now apply exists_tutor_profile_exists. }
  assert (Hp : papers (snd r)
               = patch_rows st (Profile.id profile) (Paper.id p)
                   (TutorDashboard.accept_patch env profile)).
  { subst r. unfold TutorDashboard.handleAccept. rewrite Hid, Hu. simpl.
    now rewrite notify_papers. }
  assert (Hpr : profiles (snd r) = profiles st).
  { subst r. unfold TutorDashboard.handleAccept. rewrite Hid, Hu. simpl.
    now rewrite notify_profiles. }
  assert (Hp' : In p' (papers (snd r))).
  { rewrite Hp.
    apply (In_patch_rows st _ (TutorDashboard.accept_patch env profile) p Hin Ht). }
  assert (Htutor' : exists_tutor_profile (snd r) (Profile.id profile) = true)
    by (unfold exists_tutor_profile in *; now rewrite Hpr).
  split; [subst r; unfold TutorDashboard.handleAccept; now rewrite Hid, Hu|].
  split; [exact Hp'|]. split; [|split].
  - apply (tutor_loadPapers_In profile (snd r) p' Htutor' Hp'). now left.
  - unfold TutorDashboard.renders, TutorDashboard.buttons. simpl.
    now rewrite String.eqb_refl.
  - intros other q Hother Hq Hqid.
    apply loadPapers_mine_or_pending in Hq. destruct Hq as [Hq Hwhy].
    rewrite Hp in Hq.
    apply (patch_rows_of_key st _ _ p q Hin Hkey Ht) in Hq; [|exact Hqid].
    subst q. simpl in Hwhy. destruct Hwhy as [H|H]; congruence.
Qed.

Lemma claim_of_a_pending_paper_assigns_it_witness :
  fst (TutorDashboard.handleAccept (env_at 20 "N1") tom quiz_pending school_with_quiz)
  = Returned
  /\ In quiz_accepted
        (papers (snd (TutorDashboard.handleAccept (env_at 20 "N1") tom quiz_pending
                        school_with_quiz)))
  /\ In quiz_accepted
        (TutorDashboard.loadPapers tom
           (snd (TutorDashboard.handleAccept (env_at 20 "N1") tom quiz_pending
                   school_with_quiz))).
Proof.
  assert (Hkey : forall q, In q (papers school_with_quiz) ->
                           Paper.id q = Paper.id quiz_pending -> q = quiz_pending).
  { intros q Hq _. vm_compute in Hq. now destruct Hq as [<-|[]]. }
  pose proof (claim_of_a_pending_paper_assigns_it (env_at 20 "N1") tom
                quiz_pending quiz_pending school_with_quiz
                (or_introl eq_refl) Hkey eq_refl eq_refl eq_refl eq_refl eq_refl)
    as (H1 & H2 & H3 & _).
  repeat split; assumption.
Defined.

(** X11.  A tutor who is not the learner of a stored paper that is pending
    and unassigned cannot decline it: the new row would name no tutor,
    which the WITH CHECK clause of the UPDATE policy refuses.  The handler
    shows its alert and the store is as it was. *)
Theorem decline_of_a_pending_paper_is_refused
    (env : Env) (profile : Profile.t) (paper p : Paper.t) (st : Store) :
  In p (papers st) ->
  Paper.id paper = Paper.id p ->
  Paper.tutor_id p = None ->
  Paper.status p = pending ->
  exists_tutor_profile st (Profile.id profile) = true ->
  Paper.learner_id p <> Profile.id profile ->
  TutorDashboard.handleReject env profile paper st
  = (Alerted (ErrorRejectingPaper (PgFailure rls_violation)), st).
Proof.
  intros Hin Hid Hnull Hpend Htutor Hl.
  unfold TutorDashboard.handleReject. rewrite Hid.
  rewrite (update_papers_refused st _ _ (TutorDashboard.reject_patch env) p);
    auto.
  - apply update_target_of_tutor; auto.
  - unfold new_row_allowed, papers_update_check, learners_can_update_own_papers,
      tutors_can_update_assigned_papers_check. simpl.
    apply String.eqb_neq in Hl. rewrite Hl, Hnull. simpl. apply andb_false_r.
Qed.

Lemma decline_of_a_pending_paper_is_refused_witness :
  TutorDashboard.handleReject (env_at 30 "N2") tia quiz_pending school_with_quiz
  = (Alerted (ErrorRejectingPaper (PgFailure rls_violation)), school_with_quiz).
Proof.
  apply (decline_of_a_pending_paper_is_refused (env_at 30 "N2") tia quiz_pending
           quiz_pending school_with_quiz).
  - vm_compute. now left.
  - reflexivity.
  - reflexivity.
  - reflexivity.
  - reflexivity.
  - discriminate.
Defined.

(** X12.  The tutor a stored paper names, finalizing it with marks and
    grade that are not empty, marks that fit an integer column (or do not
    parse), and a picture the bucket takes, is told that the paper was
    checked.  The row is then checked and holds the public URL of the
    picture, the parsed marks, the grade and the feedback as typed; the
    learner's list shows it; and the tutor's card of it has no button left
    but View Details. *)
Theorem finalize_by_the_assigned_tutor_grades_the_paper
    (env : Env) (profile : Profile.t) (paper p : Paper.t)
    (marks grade feedback png path : string) (st : Store) :
  In p (papers st) ->
  (forall q, In q (papers st) -> Paper.id q = Paper.id p -> q = p) ->
  Paper.id paper = Paper.id p ->
  Paper.tutor_id p = Some (Profile.id profile) ->
  exists_tutor_profile st (Profile.id profile) = true ->
  profile_exists st (Paper.learner_id p) = true ->
  marks <> "" -> grade <> "" ->
  (forall z, parseInt marks = Some z -> fits_integer z = true) ->
  storage_upload env (AnnotationEditor.checked_file_path env paper) png = Some path ->
  let r := AnnotationEditor.handleSubmit env profile paper marks grade feedback
             (Blob png) st in
  let p' := Paper.mk (Paper.id p) (Paper.learner_id p) (Paper.tutor_id p)
              (Paper.title p) (Paper.answer_sheet_url p)
              (Paper.question_paper_url p) (Some (getPublicUrl env path))
              checked (parseInt marks) (Some grade) (Some feedback)
              (Paper.created_at p) (Date_now env) in
  fst r = Alerted PaperCheckedSuccessfully
  /\ In p' (papers (snd r))
  /\ (forall owner, Profile.id owner = Paper.learner_id p ->
                    In p' (LearnerDashboard.loadPapers owner (snd r)))
  /\ TutorDashboard.buttons profile p' = [TutorDashboard.ViewDetails].
Proof.
  intros Hin Hkey Hid Hmine Htutor Hlearner Hm Hg Hfit Hup r p'.
  set (u := AnnotationEditor.submit_patch env (getPublicUrl env path) marks grade
              feedback).
  assert (Ht : update_target st (Profile.id profile) (Paper.id p) p = true)
    by (apply update_target_of_tutor; auto).
  assert (Hu : update_papers st (Profile.id profile) u (Paper.id p)
               = DbOk (mkStore (profiles st)
                         (patch_rows st (Profile.id profile) (Paper.id p) u)
                         (notifications st))).
  { apply update_papers_succeeds.
    - unfold patch_fits, u. simpl.
      destruct (parseInt marks) as [z|]; [now apply Hfit|reflexivity].
    - intros q Hq Hqt. pose proof Hqt as Hq'. apply update_target_true in Hq'.
      destruct Hq' as [Hqid _]. rewrite (Hkey q Hq Hqid). split.
      + unfold new_row_allowed, papers_update_check,
          tutors_can_update_assigned_papers_check.
        rewrite tutors_can_view_every_paper by exact Htutor. simpl.
        apply eq_uid_true in Hmine. rewrite Hmine. simpl. apply orb_true_r.
      + unfold paper_foreign_keys. simpl. rewrite Hlearner, Hmine. simpl.
        now apply exists_tutor_profile_exists. }
  assert (Hr : r = (Alerted PaperCheckedSuccessfully,
                    notify env (Profile.id profile)
                      (mkStore (profiles st)
                         (patch_rows st (Profile.id profile) (Paper.id p) u)
                         (notifications st))
                      (Paper.learner_id paper) (Paper.id paper)
                      (AnnotationEditor.submit_message paper marks grade))).
  { subst r. unfold AnnotationEditor.handleSubmit.
    apply String.eqb_neq in Hm, Hg. rewrite Hm, Hg. simpl.
    rewrite Hup, Hid. fold u. now rewrite Hu. }
  assert (Hp' : In p' (papers (snd r))).
  { rewrite Hr. simpl. rewrite notify_papers. simpl.
    apply (In_patch_rows st _ u p Hin Ht). }
  split; [now rewrite Hr|]. split; [exact Hp'|]. split.
  - intros owner Ho. unfold LearnerDashboard.loadPapers.
    apply In_order_desc, filter_In. split; [exact Hp'|].
    unfold papers_select, learners_can_view_own_papers. simpl.
    rewrite Ho, String.eqb_refl. reflexivity.
  - reflexivity.
Qed.

Lemma finalize_by_the_assigned_tutor_grades_the_paper_witness :
  fst (AnnotationEditor.handleSubmit (env_at 40 "N3") tom quiz_accepted "85" "A"
         "well done" (Blob "PNG") school_quiz_accepted)
  = Alerted PaperCheckedSuccessfully
  /\ In (Paper.mk "P1" "L1" (Some "T1") "Algebra Quiz"
           (Paper.answer_sheet_url quiz_accepted) None (Some checked_url)
           checked (Some 85%Z) (Some "A") (Some "well done") 10%N 40%N)
        (papers (snd (AnnotationEditor.handleSubmit (env_at 40 "N3") tom
                        quiz_accepted "85" "A" "well done" (Blob "PNG")
                        school_quiz_accepted))).
Proof.
  assert (Hkey : forall q, In q (papers school_quiz_accepted) ->
                           Paper.id q = Paper.id quiz_accepted -> q = quiz_accepted).
  { intros q Hq _. vm_compute in Hq. now destruct Hq as [<-|[]]. }
  assert (Hfit : forall z, parseInt "85" = Some z -> fits_integer z = true).
  { intros z Hz. vm_compute in Hz. now injection Hz as <-. }
  pose proof (finalize_by_the_assigned_tutor_grades_the_paper (env_at 40 "N3") tom
                quiz_accepted quiz_accepted "85" "A" "well done" "PNG"
                "L1/checked_P1_checked_40.png" school_quiz_accepted
                (or_introl eq_refl) Hkey eq_refl eq_refl eq_refl eq_refl)
    as H.
  destruct H as (H1 & H2 & _); try discriminate; try assumption; try reflexivity.
  split; assumption.
Defined.

(** X13.  Marks that parse to a number beyond the range of an [integer]
    column are refused by the database when the assigned tutor finalizes
    with them: the error escapes the handler without an alert, nothing is
    stored and no notification is sent.  (The number is one a Number holds
    exactly.) *)
Theorem marks_beyond_integer_are_refused
    (env : Env) (profile : Profile.t) (paper p : Paper.t)
    (marks grade feedback png path : string) (z : Z) (st : Store) :
  In p (papers st) ->
  Paper.id paper = Paper.id p ->
  Paper.tutor_id p = Some (Profile.id profile) ->
  exists_tutor_profile st (Profile.id profile) = true ->
  grade <> "" ->
  storage_upload env (AnnotationEditor.checked_file_path env paper) png = Some path ->
  parseInt marks = Some z ->
  (Z.abs z < 2 ^ 53)%Z ->
  fits_integer z = false ->
  AnnotationEditor.handleSubmit env profile paper marks grade feedback (Blob png) st
  = (Unhandled (PgFailure numeric_out_of_range), st).
Proof.
  intros Hin Hid Hmine Htutor Hg Hup Hz _ Hfit.
  unfold AnnotationEditor.handleSubmit.
  assert (Hm : marks <> "") by (intros ->; discriminate).
  apply String.eqb_neq in Hm, Hg. rewrite Hm, Hg. simpl. rewrite Hup, Hid.
  assert (Hreached : existsb (update_target st (Profile.id profile) (Paper.id p))
                             (papers st) = true).
  { apply existsb_exists. exists p. split; [exact Hin|].
    apply update_target_of_tutor; auto. }
  unfold update_papers, patch_fits, AnnotationEditor.submit_patch. simpl.
  now rewrite Hz, Hfit, Hreached.
Qed.

Lemma marks_beyond_integer_are_refused_witness :
  AnnotationEditor.handleSubmit (env_at 40 "N3") tom quiz_accepted "3000000000" "A"
    "" (Blob "PNG") school_quiz_accepted
  = (Unhandled (PgFailure numeric_out_of_range), school_quiz_accepted).
Proof.
  apply (marks_beyond_integer_are_refused (env_at 40 "N3") tom quiz_accepted
           quiz_accepted "3000000000" "A" "" "PNG" "L1/checked_P1_checked_40.png"
           3000000000%Z school_quiz_accepted).
  - vm_compute. now left.
  - reflexivity.
  - reflexivity.
  - reflexivity.
  - discriminate.
  - reflexivity.
  - reflexivity.
  - reflexivity.
  - reflexivity.
Defined.

(** ** The notification of a transition *)

(** The update of a claim goes through on a paper that is pending and
    unassigned. *)
Lemma claim_update_goes_through
    (env : Env) (profile : Profile.t) (p : Paper.t) (st : Store) :
  In p (papers st) ->
  (forall q, In q (papers st) -> Paper.id q = Paper.id p -> q = p) ->
  exists_tutor_profile st (Profile.id profile) = true ->
  profile_exists st (Paper.learner_id p) = true ->
  update_papers st (Profile.id profile) (TutorDashboard.accept_patch env profile)
                (Paper.id p)
  = DbOk (mkStore (profiles st)
            (patch_rows st (Profile.id profile) (Paper.id p)
               (TutorDashboard.accept_patch env profile))
            (notifications st)).
Proof.
  intros Hin Hkey Htutor Hlearner.
  apply update_papers_succeeds; [reflexivity|].
  intros q Hq Hqt. pose proof Hqt as Hq'. apply update_target_true in Hq'.
  destruct Hq' as [Hqid _]. rewrite (Hkey q Hq Hqid). split.
  - unfold new_row_allowed, papers_update_check,
      tutors_can_update_assigned_papers_check.
    rewrite tutors_can_view_every_paper by exact Htutor. simpl.
    rewrite String.eqb_refl. simpl. apply orb_true_r.
  - unfold paper_foreign_keys. simpl. rewrite Hlearner.
    now apply exists_tutor_profile_exists.
Qed.

(** An update that leaves tutor_id alone and fits the columns goes through
    on a paper that names the caller as its tutor. *)
Lemma update_by_the_assigned_tutor_goes_through
    (st : Store) (uid : string) (u : PaperPatch) (p : Paper.t) :
  In p (papers st) ->
  (forall q, In q (papers st) -> Paper.id q = Paper.id p -> q = p) ->
  Paper.tutor_id p = Some uid ->
  exists_tutor_profile st uid = true ->
  profile_exists st (Paper.learner_id p) = true ->
  set_tutor_id u = None ->
  patch_fits u = true ->
  update_papers st uid u (Paper.id p)
  = DbOk (mkStore (profiles st) (patch_rows st uid (Paper.id p) u)
            (notifications st)).
Proof.
  intros Hin Hkey Hmine Htutor Hlearner Hset Hfit.
  apply update_papers_succeeds; [exact Hfit|].
  intros q Hq Hqt. pose proof Hqt as Hq'. apply update_target_true in Hq'.
  destruct Hq' as [Hqid _]. rewrite (Hkey q Hq Hqid). split.
  - unfold new_row_allowed, papers_update_check,
      tutors_can_update_assigned_papers_check.
    rewrite tutors_can_view_every_paper by exact Htutor. simpl.
    rewrite Hset. simpl.
    apply eq_uid_true in Hmine. rewrite Hmine. simpl. apply orb_true_r.
  - unfold paper_foreign_keys. simpl. rewrite Hset. simpl.
    rewrite Hlearner, Hmine. simpl.
    now apply exists_tutor_profile_exists.
Qed.

(** After an update that went through, the insert of the notification
    about a stored paper appends that one row. *)
Lemma notify_after_update (env : Env) (uid pid : string) (u : PaperPatch)
    (p : Paper.t) (msg : string) (st : Store) :
  In p (papers st) ->
  profile_exists st (Paper.learner_id p) = true ->
  notification_exists st (gen_random_uuid env) = false ->
  notify env uid (mkStore (profiles st) (patch_rows st uid pid u) (notifications st))
         (Paper.learner_id p) (Paper.id p) msg
  = mkStore (profiles st) (patch_rows st uid pid u)
      (notifications st
       ++ [new_notification env (Paper.learner_id p) (Paper.id p) msg])%list.
Proof.
  intros Hin Hl Hn.
  assert (He : paper_exists (mkStore (profiles st) (patch_rows st uid pid u)
                               (notifications st)) (Paper.id p) = true).
  { erewrite paper_exists_ids by (simpl; apply patch_rows_ids).
    apply existsb_exists. exists p. split; [exact Hin|apply String.eqb_refl]. }
  unfold notify, insert_notification.
  unfold notification_exists, profile_exists in *. simpl in *.
  now rewrite Hn, Hl, He.
Qed.

(** C7 (as amended).  Let the card [paper] show a stored paper [p] (same
    id, same learner_id) whose learner is registered, and let the uuid
    drawn for the notification be fresh.

    Every transition sends exactly one notification to the learner of the
    paper.  For a registered tutor and an id that is a key:
    - the claim of a pending, unassigned paper returns quietly, stores the
      row as accepted by the caller, and appends one notification;
    - the decline by the tutor the paper names returns quietly, stores the
      row as rejected, and appends one notification;
    - the finalize by the tutor the paper names, with marks and grade that
      are not empty, marks that fit the column and a picture the bucket
      takes, announces success, stores the row as checked, and appends one
      notification.
    Each of these notifications is unread, addressed to the learner_id of
    the paper and about the paper.

    No call sends more than one: a call of the three handlers that reports
    no failure appends exactly one notification, one that reports a failure
    leaves the store as it was, and upload and mark-as-read append none.
    (A call whose update reached no row reports no failure, and notifies
    too.) *)
Theorem each_transition_sends_one_notification
    (env : Env) (profile : Profile.t) (p paper : Paper.t) (st : Store) :
  In p (papers st) ->
  Paper.id paper = Paper.id p ->
  Paper.learner_id paper = Paper.learner_id p ->
  profile_exists st (Paper.learner_id p) = true ->
  notification_exists st (gen_random_uuid env) = false ->
  ((forall q, In q (papers st) -> Paper.id q = Paper.id p -> q = p) ->
   exists_tutor_profile st (Profile.id profile) = true ->
   (Paper.status p = pending -> Paper.tutor_id p = None ->
    transition_done st (TutorDashboard.handleAccept env profile paper st)
      Returned
      (Paper.mk (Paper.id p) (Paper.learner_id p) (Some (Profile.id profile))
         (Paper.title p) (Paper.answer_sheet_url p) (Paper.question_paper_url p)
         (Paper.checked_sheet_url p) accepted (Paper.marks p) (Paper.grade p)
         (Paper.feedback p) (Paper.created_at p) (Date_now env))
      (Notification.mk (gen_random_uuid env) (Paper.learner_id p)
         (Some (Paper.id p)) (TutorDashboard.accept_message paper) false
         (db_now env)))
   /\ (Paper.tutor_id p = Some (Profile.id profile) ->
       transition_done st (TutorDashboard.handleReject env profile paper st)
         Returned
         (Paper.mk (Paper.id p) (Paper.learner_id p) (Paper.tutor_id p)
            (Paper.title p) (Paper.answer_sheet_url p)
            (Paper.question_paper_url p) (Paper.checked_sheet_url p) rejected
            (Paper.marks p) (Paper.grade p) (Paper.feedback p)
            (Paper.created_at p) (Date_now env))
         (Notification.mk (gen_random_uuid env) (Paper.learner_id p)
            (Some (Paper.id p)) (TutorDashboard.reject_message paper) false
            (db_now env)))
   /\ (Paper.tutor_id p = Some (Profile.id profile) ->
       forall marks grade feedback png path,
         marks <> "" -> grade <> "" ->
         (forall z, parseInt marks = Some z -> fits_integer z = true) ->
         storage_upload env (AnnotationEditor.checked_file_path env paper) png
         = Some path ->
         transition_done st
           (AnnotationEditor.handleSubmit env profile paper marks grade feedback
              (Blob png) st)
           (Alerted PaperCheckedSuccessfully)
           (Paper.mk (Paper.id p) (Paper.learner_id p) (Paper.tutor_id p)
              (Paper.title p) (Paper.answer_sheet_url p)
              (Paper.question_paper_url p) (Some (getPublicUrl env path)) checked
              (parseInt marks) (Some grade) (Some feedback)
              (Paper.created_at p) (Date_now env))
           (Notification.mk (gen_random_uuid env) (Paper.learner_id p)
              (Some (Paper.id p))
              (AnnotationEditor.submit_message paper marks grade) false
              (db_now env))))
  /\ notified_once p st (TutorDashboard.handleAccept env profile paper st)
  /\ notified_once p st (TutorDashboard.handleReject env profile paper st)
  /\ (forall marks grade feedback canvas,
        notified_once p st
          (AnnotationEditor.handleSubmit env profile paper marks grade feedback
             canvas st))
  /\ (forall title answerSheet questionPaper,
        notifications (snd (LearnerDashboard.handleUpload env profile title
                              answerSheet questionPaper st))
        = notifications st)
  /\ (forall notificationId,
        map Notification.id
            (notifications (snd (Navbar.markAsRead profile notificationId st)))
        = map Notification.id (notifications st)).
Proof.
  intros Hin Hid Hlid Hl Hn.
  split; [|now apply one_notification_per_call].
  intros Hkey Htutor. unfold transition_done. split; [|split].
  - intros Hpend Hnull.
    assert (Ht : update_target st (Profile.id profile) (Paper.id p) p = true)
      by (apply update_target_of_tutor; auto).
    unfold TutorDashboard.handleAccept. rewrite Hid, Hlid.
    rewrite claim_update_goes_through by assumption.
    rewrite notify_after_update by assumption. simpl.
    repeat split.
    apply (In_patch_rows st _ (TutorDashboard.accept_patch env profile) p Hin Ht).
  - intros Hmine.
    assert (Ht : update_target st (Profile.id profile) (Paper.id p) p = true)
      by (apply update_target_of_tutor; auto).
    unfold TutorDashboard.handleReject. rewrite Hid, Hlid.
    rewrite update_by_the_assigned_tutor_goes_through by (assumption || reflexivity).
    rewrite notify_after_update by assumption. simpl.
    repeat split.
    apply (In_patch_rows st _ (TutorDashboard.reject_patch env) p Hin Ht).
  - intros Hmine marks grade feedback png path Hm Hg Hfit Hup.
    assert (Ht : update_target st (Profile.id profile) (Paper.id p) p = true)
      by (apply update_target_of_tutor; auto).
    unfold AnnotationEditor.handleSubmit.
    apply String.eqb_neq in Hm, Hg. rewrite Hm, Hg. simpl.
    rewrite Hup, Hid, Hlid.
    rewrite update_by_the_assigned_tutor_goes_through;
      try assumption; try reflexivity.
    + rewrite notify_after_update by assumption. simpl.
      repeat split.
      apply (In_patch_rows st _
               (AnnotationEditor.submit_patch env (getPublicUrl env path) marks
                  grade feedback) p Hin Ht).
    + unfold patch_fits. simpl.
      destruct (parseInt marks) as [z|]; [now apply Hfit|reflexivity].
Qed.

Lemma each_transition_sends_one_notification_witness :
  transition_done school_with_quiz
    (TutorDashboard.handleAccept (env_at 20 "N1") tom quiz_pending school_with_quiz)
    Returned
    quiz_accepted
    (Notification.mk "N1" "L1" (Some "P1")
       (TutorDashboard.accept_message quiz_pending) false 20%N)
  /\ transition_done school_quiz_accepted
       (TutorDashboard.handleReject (env_at 30 "N2") tom quiz_pending
          school_quiz_accepted)
       Returned
       (Paper.mk "P1" "L1" (Some "T1") "Algebra Quiz"
          (Paper.answer_sheet_url quiz_pending) None None rejected None None None
          10%N 30%N)
       (Notification.mk "N2" "L1" (Some "P1")
          (TutorDashboard.reject_message quiz_pending) false 30%N)
  /\ transition_done school_quiz_accepted
       (AnnotationEditor.handleSubmit (env_at 40 "N3") tom quiz_accepted "85" "A"
          "well done" (Blob "PNG") school_quiz_accepted)
       (Alerted PaperCheckedSuccessfully)
       (Paper.mk "P1" "L1" (Some "T1") "Algebra Quiz"
          (Paper.answer_sheet_url quiz_accepted) None (Some checked_url) checked
          (Some 85%Z) (Some "A") (Some "well done") 10%N 40%N)
       (Notification.mk "N3" "L1" (Some "P1")
          (AnnotationEditor.submit_message quiz_accepted "85" "A") false 40%N).
Proof.
  assert (Hkey : forall q, In q (papers school_with_quiz) ->
                           Paper.id q = Paper.id quiz_pending -> q = quiz_pending).
  { intros q Hq _. vm_compute in Hq. now destruct Hq as [<-|[]]. }
  assert (Hkey' : forall q, In q (papers school_quiz_accepted) ->
                            Paper.id q = Paper.id quiz_accepted -> q = quiz_accepted).
  { intros q Hq _. vm_compute in Hq. now destruct Hq as [<-|[]]. }
  assert (Hfit : forall z, parseInt "85" = Some z -> fits_integer z = true).
  { intros z Hz. vm_compute in Hz. now injection Hz as <-. }
  pose proof (each_transition_sends_one_notification (env_at 20 "N1") tom
                quiz_pending quiz_pending school_with_quiz
                (or_introl eq_refl) eq_refl eq_refl eq_refl eq_refl)
    as [Hclaim _].
  pose proof (each_transition_sends_one_notification (env_at 30 "N2") tom
                quiz_accepted quiz_pending school_quiz_accepted
                (or_introl eq_refl) eq_refl eq_refl eq_refl eq_refl)
    as [Hdecline _].
  pose proof (each_transition_sends_one_notification (env_at 40 "N3") tom
                quiz_accepted quiz_accepted school_quiz_accepted
                (or_introl eq_refl) eq_refl eq_refl eq_refl eq_refl)
    as [Hfinalize _].
  split; [|split].
  - exact (proj1 (Hclaim Hkey eq_refl) eq_refl eq_refl).
  - exact (proj1 (proj2 (Hdecline Hkey' eq_refl)) eq_refl).
  - refine (proj2 (proj2 (Hfinalize Hkey' eq_refl)) eq_refl "85" "A" "well done"
              "PNG" "L1/checked_P1_checked_40.png" _ _ Hfit eq_refl);
      discriminate.
Defined.

(** C7, as the claim states it, fails in its last part: a notification is
    produced where no transition took place.  The quiz is Tom's.  Tia's
    claim of it on her stale card, and her finalize of it (here with marks
    beyond the integer column, which reach no row and so raise no error),
    change no paper and report no failure, and each tells Lea of an
    acceptance or a grade that is not there. *)
Lemma notification_without_a_transition :
  map Notification.id (notifications school_quiz_accepted) = ["N1"]
  /\ (let r := TutorDashboard.handleAccept (env_at 30 "N2") tia quiz_pending
                 school_quiz_accepted in
      fst r = Returned
      /\ papers (snd r) = papers school_quiz_accepted
      /\ map (fun n => (Notification.id n, Notification.user_id n,
                        Notification.message n))
             (notifications (snd r))
         = [("N1", "L1", TutorDashboard.accept_message quiz_pending);
            ("N2", "L1", TutorDashboard.accept_message quiz_pending)])
  /\ (let r := AnnotationEditor.handleSubmit (env_at 40 "N3") tia quiz_accepted
                 "3000000000" "A" "" (Blob "PNG") school_quiz_accepted in
      fst r = Alerted PaperCheckedSuccessfully
      /\ papers (snd r) = papers school_quiz_accepted
      /\ map (fun n => (Notification.id n, Notification.user_id n,
                        Notification.message n))
             (notifications (snd r))
         = [("N1", "L1", TutorDashboard.accept_message quiz_pending);
            ("N3", "L1",
             AnnotationEditor.submit_message quiz_accepted "3000000000" "A")]).
Proof. vm_compute. repeat split. Qed.

(** ** What one event does to the tables *)

(** The store after an upload, whatever it was given. *)
Lemma upload_frame (env : Env) (profile : Profile.t) (title : string)
    (answerSheet questionPaper : option File) (st : Store) :
  let st' := snd (LearnerDashboard.handleUpload env profile title answerSheet
                    questionPaper st) in
  st' = st
  \/ exists p, st' = mkStore (profiles st) (papers st ++ [p]) (notifications st)
               /\ paper_exists st (Paper.id p) = false
               /\ Paper.status p = pending /\ Paper.tutor_id p = None
               /\ Paper.learner_id p = Profile.id profile.
Proof.
  assert (Hins : forall url question,
             let st' := snd (LearnerDashboard.insert_uploaded env profile title url
                               question st) in
             st' = st
             \/ exists p, st' = mkStore (profiles st) (papers st ++ [p])
                                  (notifications st)
                          /\ paper_exists st (Paper.id p) = false
                          /\ Paper.status p = pending /\ Paper.tutor_id p = None
                          /\ Paper.learner_id p = Profile.id profile).
  { intros url question. unfold LearnerDashboard.insert_uploaded, insert_paper.
    destruct (negb (papers_insert_check _ _)); [now left|].
    destruct (paper_exists st _) eqn:Ee; [now left|].
    destruct (negb (paper_foreign_keys st _)); [now left|].
    right. exists (LearnerDashboard.new_paper env profile title url question).
    now repeat split. }
  unfold LearnerDashboard.handleUpload, LearnerDashboard.uploadFile.
  destruct answerSheet as [a|]; [|now left].
  destruct (storage_upload env _ (bytes a)) as [stored|]; [|now left].
  destruct questionPaper as [q|]; [|apply Hins].
  destruct (storage_upload env _ (bytes q)) as [stored'|]; [apply Hins|now left].
Qed.

Lemma step_snd (st : Store) (e : Event) :
  step st e = match dispatch (env_of e) (actor e) (click e) st with
              | Some r => snd r
              | None => st
              end.
Proof. unfold step. now destruct (dispatch _ _ _ _) as [[o st']|]. Qed.

Lemma step_profiles (st : Store) (e : Event) : profiles (step st e) = profiles st.
Proof.
  rewrite step_snd. unfold dispatch.
  destruct (useAuth st (actor e)) as [profile|]; [|reflexivity].
  destruct (click e) as [title a q|paper|paper|paper marks grade feedback canvas|nid];
    destruct (Profile.role profile);
    try reflexivity;
    try (destruct (TutorDashboard.renders _ _ _); [|reflexivity]).
  - destruct (upload_frame (env_of e) profile title a q st) as [->|(p & -> & _)];
      reflexivity.
  - apply handleAccept_papers.
  - apply handleReject_papers.
  - destruct (handleSubmit_papers (env_of e) profile paper marks grade feedback
                canvas st) as [->|(url & st1 & _ & _ & _ & H & _)]; auto.
  - unfold Navbar.markAsRead. now rewrite update_notifications_is_read_ok.
  - unfold Navbar.markAsRead. now rewrite update_notifications_is_read_ok.
Qed.

(** The papers after one event: as before; or with one new pending,
    unassigned paper of a registered learner under a new id; or patched by
    one update of a registered tutor that went through, whose patch names
    that tutor or no tutor, and no status pending. *)
Lemma step_papers_shape (st : Store) (e : Event) :
  papers (step st e) = papers st
  \/ (exists p,
        papers (step st e) = (papers st ++ [p])%list
        /\ paper_exists st (Paper.id p) = false
        /\ Paper.status p = pending /\ Paper.tutor_id p = None
        /\ registered_as (profiles st) (Paper.learner_id p) learner
        /\ Paper.learner_id p = actor e)
  \/ (exists pid u st1,
        registered_as (profiles st) (actor e) tutor
        /\ update_papers st (actor e) u pid = DbOk st1
        /\ papers (step st e) = patch_rows st (actor e) pid u
        /\ (set_tutor_id u = None \/ set_tutor_id u = Some (Some (actor e)))
        /\ (forall s, set_status u = Some s -> s <> pending)).
Proof.
  rewrite step_snd. unfold dispatch.
  destruct (useAuth st (actor e)) as [profile|] eqn:Ha; [|now left].
  pose proof (useAuth_registered _ _ _ Ha) as Hreg.
  pose proof (useAuth_id _ _ _ Ha) as Hid. rewrite Hid in Hreg.
  destruct (click e) as [title a q|paper|paper|paper marks grade feedback canvas|nid];
    destruct (Profile.role profile) eqn:Hrole;
    try (now left);
    try (destruct (TutorDashboard.renders _ _ _); [|now left]).
  - destruct (upload_frame (env_of e) profile title a q st)
      as [->|(p & -> & Hnew & Hs & Ht & Hl)]; [now left|].
    right; left. exists p. rewrite Hl, Hid. now repeat split.
  - destruct (handleAccept_papers (env_of e) profile paper st) as [_ Hc].
    destruct (update_papers _ _ _ _) as [st1|err] eqn:Hu; [|rewrite Hc; now left].
    right; right. rewrite Hid in *.
    exists (Paper.id paper), (TutorDashboard.accept_patch (env_of e) profile), st1.
    repeat split; auto.
    + right. simpl. now rewrite Hid.
    + simpl. intros s Hs. injection Hs as <-. discriminate.
  - destruct (handleReject_papers (env_of e) profile paper st) as [_ Hc].
    destruct (update_papers _ _ _ _) as [st1|err] eqn:Hu; [|rewrite Hc; now left].
    right; right. rewrite Hid in *.
    exists (Paper.id paper), (TutorDashboard.reject_patch (env_of e)), st1.
    repeat split; auto.
    simpl. intros s Hs. injection Hs as <-. discriminate.
  - destruct (handleSubmit_papers (env_of e) profile paper marks grade feedback
                canvas st) as [->|(url & st1 & Hu & _ & _ & _ & Hp)]; [now left|].
    right; right. rewrite Hid in *.
    exists (Paper.id paper),
      (AnnotationEditor.submit_patch (env_of e) url marks grade feedback), st1.
    repeat split; auto.
    simpl. intros s Hs. injection Hs as <-. discriminate.
  - left. unfold Navbar.markAsRead. now rewrite update_notifications_is_read_ok.
  - left. unfold Navbar.markAsRead. now rewrite update_notifications_is_read_ok.
Qed.

Lemma notify_shape (env : Env) (uid : string) (st : Store)
    (user paper msg : string) :
  notifications (notify env uid st user paper msg) = notifications st
  \/ exists n,
       notifications (notify env uid st user paper msg)
       = (notifications st ++ [n])%list
       /\ notification_exists st (Notification.id n) = false
       /\ profile_exists st (Notification.user_id n) = true
       /\ Notification.paper_id n = Some paper
       /\ paper_exists st paper = true.
Proof.
  unfold notify, insert_notification. simpl.
  destruct (notification_exists st _) eqn:En; [now left|].
  destruct (profile_exists st user) eqn:Eu; simpl; [|now left].
  destruct (paper_exists st paper) eqn:Ep; simpl; [|now left].
  right. exists (new_notification env user paper msg). now repeat split.
Qed.

Lemma update_papers_keeps_references (st st1 : Store) (uid pid : string)
    (u : PaperPatch) :
  update_papers st uid u pid = DbOk st1 ->
  notifications st1 = notifications st
  /\ (forall x, notification_exists st1 x = notification_exists st x)
  /\ (forall x, profile_exists st1 x = profile_exists st x)
  /\ (forall x, paper_exists st1 x = paper_exists st x).
Proof.
  intros H. apply update_papers_ok in H. destruct H as [-> _].
  repeat split; auto.
  intros x. apply paper_exists_ids. simpl. apply patch_rows_ids.
Qed.

(** The notifications after one event: as before; or with one more, under
    a new id, for a registered user and about a stored paper; or with the
    is_read flag of some set. *)
Lemma step_notifications_shape (st : Store) (e : Event) :
  notifications (step st e) = notifications st
  \/ (exists n pid,
        notifications (step st e) = (notifications st ++ [n])%list
        /\ notification_exists st (Notification.id n) = false
        /\ profile_exists st (Notification.user_id n) = true
        /\ Notification.paper_id n = Some pid
        /\ paper_exists st pid = true)
  \/ (exists nid,
        notifications (step st e)
        = map (fun n => if notification_target (actor e) nid n
                        then set_is_read n else n)
              (notifications st)).
Proof.
  assert (Hupd : forall env uid u pid st1 user msg,
             update_papers st uid u pid = DbOk st1 ->
             let l := notifications (notify env uid st1 user pid msg) in
             l = notifications st
             \/ exists n pid',
                  l = (notifications st ++ [n])%list
                  /\ notification_exists st (Notification.id n) = false
                  /\ profile_exists st (Notification.user_id n) = true
                  /\ Notification.paper_id n = Some pid'
                  /\ paper_exists st pid' = true).
  { intros env uid u pid st1 user msg Hu.
    destruct (update_papers_keeps_references _ _ _ _ _ Hu) as (Hn & He & Hp & Hq).
    destruct (notify_shape env uid st1 user pid msg)
      as [H|(n & H & H1 & H2 & H3 & H4)]; simpl.
    - left. congruence.
    - right. exists n, pid. rewrite H, Hn, <- He, <- Hp, <- Hq. now repeat split. }
  rewrite step_snd. unfold dispatch.
  destruct (useAuth st (actor e)) as [profile|] eqn:Ha; [|now left].
  apply useAuth_id in Ha.
  destruct (click e) as [title a q|paper|paper|paper marks grade feedback canvas|nid];
    destruct (Profile.role profile);
    try (now left);
    try (destruct (TutorDashboard.renders _ _ _); [|now left]).
  - destruct (upload_frame (env_of e) profile title a q st) as [->|(p & -> & _)];
      now left.
  - unfold TutorDashboard.handleAccept.
    destruct (update_papers _ _ _ _) as [st1|err] eqn:Hu; [|now left].
    destruct (Hupd (env_of e) _ _ _ _ (Paper.learner_id paper)
                (TutorDashboard.accept_message paper) Hu) as [H|H]; auto.
  - unfold TutorDashboard.handleReject.
    destruct (update_papers _ _ _ _) as [st1|err] eqn:Hu; [|now left].
    destruct (Hupd (env_of e) _ _ _ _ (Paper.learner_id paper)
                (TutorDashboard.reject_message paper) Hu) as [H|H]; auto.
  - unfold AnnotationEditor.handleSubmit.
    destruct ((marks =? "") || (grade =? "")); [now left|].
    destruct canvas as [| |png]; try now left.
    destruct (storage_upload (env_of e) _ png) as [path|]; [|now left].
    destruct (update_papers _ _ _ _) as [st1|err] eqn:Hu; [|now left].
    destruct (Hupd (env_of e) _ _ _ _ (Paper.learner_id paper)
                (AnnotationEditor.submit_message paper marks grade) Hu) as [H|H];
      auto.
  - right; right. exists nid. rewrite <- Ha.
    unfold Navbar.markAsRead. now rewrite update_notifications_is_read_ok.
  - right; right. exists nid. rewrite <- Ha.
    unfold Navbar.markAsRead. now rewrite update_notifications_is_read_ok.
Qed.

(** ** What a history never does *)

Lemma Forall2_trans {A : Type} (R : A -> A -> Prop) (l1 l2 l3 : list A) :
  (forall a b c, R a b -> R b c -> R a c) ->
  Forall2 R l1 l2 -> Forall2 R l2 l3 -> Forall2 R l1 l3.
Proof.
  intros Ht H12. revert l3. induction H12 as [|a b l1 l2 Hab _ IH]; intros l3 H23.
  - inversion H23. constructor.
  - inversion H23 as [|b' c l2' l3' Hbc H23']; subst.
    constructor; [eapply Ht; eauto|now apply IH].
Qed.

Lemma continues_same {A : Type} (R : A -> A -> Prop) (l : list A) :
  (forall x, R x x) -> continues R l l.
Proof.
  intros Hr. exists l, []. split; [now rewrite app_nil_r|].
  apply Forall2_same. auto.
Qed.

Lemma continues_related {A : Type} (R : A -> A -> Prop) (l l' : list A) :
  Forall2 R l l' -> continues R l l'.
Proof. intros H. exists l', []. split; [now rewrite app_nil_r|exact H]. Qed.

Lemma continues_added {A : Type} (R : A -> A -> Prop) (l added : list A) :
  (forall x, R x x) -> continues R l (l ++ added).
Proof.
  intros Hr. exists l, added. split; [reflexivity|].
  apply Forall2_same. auto.
Qed.

Lemma continues_trans {A : Type} (R : A -> A -> Prop) (l1 l2 l3 : list A) :
  (forall a b c, R a b -> R b c -> R a c) ->
  continues R l1 l2 -> continues R l2 l3 -> continues R l1 l3.
Proof.
  intros Ht (k & a & -> & H12) (k' & a' & -> & H23).
  apply Forall2_app_inv_l in H23.
  destruct H23 as (k1 & k2 & Hk1 & Hk2 & ->).
  exists k1, (k2 ++ a')%list. split; [now rewrite app_assoc|].
  eapply Forall2_trans; eauto.
Qed.

Section Along_a_history.

Variable A : Type.
Variable table : Store -> list A.
Variable R : A -> A -> Prop.
Variable Inv : Store -> Prop.
Variable allowed : Event -> Prop.

Hypothesis R_refl : forall x, R x x.
Hypothesis R_trans : forall a b c, R a b -> R b c -> R a c.
Hypothesis Inv_step : forall st e, Inv st -> Inv (step st e).
Hypothesis R_step :
  forall st e, Inv st -> allowed e -> continues R (table st) (table (step st e)).

Lemma run_continues (history : list Event) (st : Store) :
  Inv st -> Forall allowed history ->
  continues R (table st) (table (run history st)).
Proof.
  revert st. induction history as [|e history IH]; intros st Hinv Hall; simpl.
  - now apply continues_same.
  - inversion Hall as [|e' h' He Hh]; subst.
    apply (continues_trans R _ (table (step st e))).
    + exact R_trans.
    + now apply R_step.
    + apply IH; [now apply Inv_step|assumption].
Qed.

End Along_a_history.

Lemma Forall_True {A : Type} (l : list A) : Forall (fun _ => True) l.
Proof. induction l; constructor; auto. Qed.

(** X14.  Through any history and from any store, notifications are only
    added and read: every notification that was stored is still there, in
    its place, with the same id, addressee, paper, message and time; its
    is_read flag may have been set, never cleared; new ones come after. *)
Theorem notifications_are_only_added_and_read (history : list Event) (st : Store) :
  continues (fun n n' => n' = n \/ n' = set_is_read n)
            (notifications st) (notifications (run history st)).
Proof.
  apply (run_continues _ notifications _ (fun _ => True) (fun _ => True));
    auto using Forall_True.
  - intros a b c [->| ->] [->| ->]; auto.
  - clear. intros st e _ _.
    destruct (step_notifications_shape st e)
      as [->|[(n & pid & -> & _)|(nid & ->)]].
    + apply continues_same. auto.
    + apply continues_added. auto.
    + apply continues_related.
      induction (notifications st) as [|n l IH]; simpl; constructor; auto.
      destruct (notification_target (actor e) nid n); auto.
Qed.

Lemma apply_patch_same_upload (u : PaperPatch) (p : Paper.t) :
  same_upload p (apply_patch u p).
Proof. now repeat split. Qed.

(** X15.  Through any history and from any store, papers are only added
    and updated: every paper that was stored is still there, in its place,
    with the same id, learner, title, answer sheet, question paper and
    creation time; and a paper that has left the status pending does not
    return to it.  New papers come after. *)
Theorem papers_are_only_added_and_updated (history : list Event) (st : Store) :
  continues (fun p p' =>
               same_upload p p'
               /\ (Paper.status p <> pending -> Paper.status p' <> pending))
            (papers st) (papers (run history st)).
Proof.
  apply (run_continues _ papers _ (fun _ => True) (fun _ => True));
    auto using Forall_True.
  - intros p. now repeat split.
  - intros a b c [Hab Hs] [Hbc Hs']. split; [|auto].
    unfold same_upload in *. intuition congruence.
  - clear. intros st e _ _.
    destruct (step_papers_shape st e)
      as [->|[(p & -> & _)|(pid & u & st1 & _ & _ & -> & _ & Hs)]].
    + apply continues_same. intros p. now repeat split.
    + apply continues_added. intros q. now repeat split.
    + apply continues_related. apply Forall2_patch_rows.
      * intros p _. now repeat split.
      * intros p _ _. split; [apply apply_patch_same_upload|].
        simpl. destruct (set_status u) as [s|]; simpl; [|auto].
        intros _. now apply Hs.
Qed.

Lemma well_kept_step (users : list Profile.t) (st : Store) (e : Event) :
  well_kept users st -> well_kept users (step st e).
Proof. intros [Hu Hinv]. now apply step_keeps_invariant. Qed.

Lemma well_kept_history (users : list Profile.t) (history : list Event) :
  well_kept users (run history (fresh_store users)).
Proof. now apply run_keeps_invariant; [|constructor]. Qed.

(** One event and the papers that name a tutor: each keeps its tutor, and
    is not changed at all unless that tutor is the actor. *)
Lemma step_spares_assigned_papers (users : list Profile.t) (st : Store) (e : Event) :
  well_kept users st ->
  continues (fun p p' => forall t, Paper.tutor_id p = Some t ->
                                   Paper.tutor_id p' = Some t
                                   /\ (t <> actor e -> p' = p))
            (papers st) (papers (step st e)).
Proof.
  intros [Hu Hinv].
  destruct (step_papers_shape st e)
    as [->|[(p & -> & _)|(pid & u & st1 & Hreg & _ & -> & Hset & _)]].
  - apply continues_same. now split.
  - apply continues_added. now split.
  - apply continues_related. apply Forall2_patch_rows.
    + intros p _ t Ht. now split.
    + intros p Hin Hreach t Ht.
      apply update_target_true in Hreach. destruct Hreach as [_ Hwho].
      rewrite Forall_forall in Hinv.
      destruct (Hinv p Hin) as (_ & _ & _ & _ & Hl).
      rewrite Hu in Hreg.
      destruct Hwho as [Hw|[Hw|[Hw _]]]; [| |congruence].
      * rewrite Hw in Hl.
        discriminate (registered_as_one_role _ _ _ _ Hl Hreg).
      * assert (t = actor e) by congruence. subst t. split; [|congruence].
        simpl. destruct Hset as [-> | ->]; simpl; congruence.
Qed.

(** X16.  Once a paper names a tutor it names that tutor for good: after
    any history, whatever follows, every paper with a tutor_id is still
    stored in its place with the same tutor_id. *)
Theorem assigned_tutor_is_permanent
    (users : list Profile.t) (before after : list Event) :
  continues (fun p p' => forall t, Paper.tutor_id p = Some t ->
                                   Paper.tutor_id p' = Some t)
            (papers (run before (fresh_store users)))
            (papers (run (before ++ after) (fresh_store users))).
Proof.
  unfold run. rewrite fold_left_app. fold (run before (fresh_store users)).
  apply (run_continues _ papers _ (well_kept users) (fun _ => True)).
  - auto.
  - eauto.
  - apply well_kept_step.
  - intros st e Hk _.
    destruct (step_spares_assigned_papers users st e Hk) as (k & a & E & H).
    exists k, a. split; [exact E|].
    eapply Forall2_impl; [|exact H]. intros p p' Hp t Ht. now apply Hp.
  - apply well_kept_history.
  - apply Forall_True.
Qed.

(** X17.  An assigned paper is changed by its tutor only: after any
    history, if none of the events that follow is an action of the user
    [t], then every paper that names [t] as tutor is still stored in its
    place and identical, whatever the other users clicked. *)
Theorem only_its_tutor_changes_an_assigned_paper
    (users : list Profile.t) (before after : list Event) (t : string) :
  Forall (fun e => actor e <> t) after ->
  continues (fun p p' => Paper.tutor_id p = Some t -> p' = p)
            (papers (run before (fresh_store users)))
            (papers (run (before ++ after) (fresh_store users))).
Proof.
  intros Hothers.
  unfold run. rewrite fold_left_app. fold (run before (fresh_store users)).
  apply (run_continues _ papers _ (well_kept users) (fun e => actor e <> t)).
  - auto.
  - intros a b c Hab Hbc Ha. specialize (Hab Ha). subst b. auto.
  - apply well_kept_step.
  - intros st e Hk He.
    destruct (step_spares_assigned_papers users st e Hk) as (k & a & E & H).
    exists k, a. split; [exact E|].
    eapply Forall2_impl; [|exact H]. intros p p' Hp Ht.
    destruct (Hp t Ht) as [_ Hsame]. apply Hsame. congruence.
  - apply well_kept_history.
  - exact Hothers.
Qed.

Lemma only_its_tutor_changes_an_assigned_paper_witness :
  continues (fun p p' => Paper.tutor_id p = Some "T1" -> p' = p)
            (papers (run [upload_quiz; tom_accepts] school))
            (papers (run ([upload_quiz; tom_accepts] ++ [tia_accepts; tia_rejects])
                         school)).
Proof.
  apply (only_its_tutor_changes_an_assigned_paper [lea; tom; tia]
           [upload_quiz; tom_accepts] [tia_accepts; tia_rejects] "T1").
  repeat constructor; discriminate.
Defined.

(** ** Keys and references *)

Lemma paper_exists_In (st : Store) (pid : string) :
  paper_exists st pid = true <-> In pid (map Paper.id (papers st)).
Proof.
  unfold paper_exists. rewrite existsb_exists, in_map_iff.
  split; intros (p & H1 & H2).
  - exists p. split; [now apply String.eqb_eq|exact H1].
  - exists p. split; [exact H2|now apply String.eqb_eq].
Qed.

Lemma notification_exists_In (st : Store) (nid : string) :
  notification_exists st nid = true <-> In nid (map Notification.id (notifications st)).
Proof.
  unfold notification_exists. rewrite existsb_exists, in_map_iff.
  split; intros (n & H1 & H2).
  - exists n. split; [now apply String.eqb_eq|exact H1].
  - exists n. split; [exact H2|now apply String.eqb_eq].
Qed.

Lemma NoDup_added {A : Type} (l : list A) (x : A) :
  NoDup l -> ~ In x l -> NoDup (l ++ [x]).
Proof.
  intros Hl Hx. apply NoDup_app; [exact Hl|repeat constructor; auto|].
  intros y Hy [<-|[]]. contradiction.
Qed.

(** No statement deletes a paper or changes an id, so a paper that exists
    goes on existing. *)
Lemma paper_exists_step (st : Store) (e : Event) (pid : string) :
  paper_exists st pid = true -> paper_exists (step st e) pid = true.
Proof.
  rewrite !paper_exists_In.
  destruct (step_papers_shape st e)
    as [->|[(p & -> & _)|(pid' & u & st1 & _ & _ & -> & _)]]; auto.
  - intros H. rewrite map_app. apply in_or_app. now left.
  - now rewrite patch_rows_ids.
Qed.

Lemma profile_exists_step (st : Store) (e : Event) (uid : string) :
  profile_exists (step st e) uid = profile_exists st uid.
Proof. unfold profile_exists. now rewrite step_profiles. Qed.

Lemma step_keeps_keys_and_references
    (users : list Profile.t) (st : Store) (e : Event) :
  profiles st = users ->
  keys_and_references users st -> keys_and_references users (step st e).
Proof.
  intros Hu (Hkp & Hkn & Hrp & Hrn). unfold keys_and_references.
  assert (Hp : NoDup (map Paper.id (papers (step st e)))
               /\ Forall (fun p => registered_as users (Paper.learner_id p) learner
                                   /\ forall t, Paper.tutor_id p = Some t ->
                                                registered_as users t tutor)
                         (papers (step st e))).
  { destruct (step_papers_shape st e)
      as [->|[(p & -> & Hnew & _ & Hnone & Hl & _)
             |(pid & u & st1 & Hreg & _ & -> & Hset & _)]].
    - now split.
    - split.
      + rewrite map_app. apply NoDup_added; [exact Hkp|].
        rewrite <- paper_exists_In. congruence.
      + apply Forall_app. split; [exact Hrp|].
        constructor; [|constructor]. rewrite Hu in Hl. split; [exact Hl|].
        intros t Ht. congruence.
    - split; [now rewrite patch_rows_ids|].
      apply Forall_patch_rows; [exact Hrp|].
      intros p _ [Hl Ht] _. split; [exact Hl|]. simpl.
      destruct Hset as [-> | ->]; simpl; [exact Ht|].
      intros t E. injection E as <-. now rewrite <- Hu. }
  destruct Hp as [Hp1 Hp2].
  assert (Hkeep : forall n,
             profile_exists st (Notification.user_id n) = true
             /\ (exists pid, Notification.paper_id n = Some pid
                             /\ paper_exists st pid = true) ->
             profile_exists (step st e) (Notification.user_id n) = true
             /\ (exists pid, Notification.paper_id n = Some pid
                             /\ paper_exists (step st e) pid = true)).
  { intros n [H1 (pid & H2 & H3)]. split; [now rewrite profile_exists_step|].
    exists pid. split; [exact H2|now apply paper_exists_step]. }
  repeat split; auto.
  - destruct (step_notifications_shape st e)
      as [->|[(n & pid & -> & Hnew & _)|(nid & ->)]]; auto.
    + rewrite map_app. apply NoDup_added; [exact Hkn|].
      rewrite <- notification_exists_In. congruence.
    + rewrite map_map.
      erewrite map_ext; [exact Hkn|].
      intros n. now destruct (notification_target (actor e) nid n).
  - destruct (step_notifications_shape st e)
      as [->|[(n & pid & -> & _ & Hu' & Hpid & Hex)|(nid & ->)]].
    + eapply Forall_impl; [|exact Hrn]. intros n. apply Hkeep.
    + apply Forall_app. split.
      * eapply Forall_impl; [|exact Hrn]. intros m. apply Hkeep.
      * constructor; [|constructor]. apply Hkeep. split; [exact Hu'|].
        now exists pid.
    + apply Forall_forall. intros n' Hn'. apply in_map_iff in Hn'.
      destruct Hn' as (n & <- & Hn). rewrite Forall_forall in Hrn.
      specialize (Hrn n Hn). apply Hkeep in Hrn.
      now destruct (notification_target (actor e) nid n).
Qed.

Lemma history_keeps_keys_and_references
    (users : list Profile.t) (history : list Event) :
  keys_and_references users (run history (fresh_store users)).
Proof.
  assert (H : forall st, profiles st = users -> keys_and_references users st ->
                         keys_and_references users (run history st)).
  { induction history as [|e history IH]; intros st Hu Hk; simpl; [exact Hk|].
    apply IH; [now rewrite step_profiles|].
    now apply step_keeps_keys_and_references. }
  apply H; [reflexivity|].
  repeat split; simpl; constructor.
Qed.

(** X18.  After any history the ids are keys: no two stored papers share
    an id, and no two notifications. *)
Theorem ids_are_keys_after_every_history
    (users : list Profile.t) (history : list Event) :
  NoDup (map Paper.id (papers (run history (fresh_store users))))
  /\ NoDup (map Notification.id (notifications (run history (fresh_store users)))).
Proof.
  destruct (history_keeps_keys_and_references users history) as (H1 & H2 & _).
  now split.
Qed.

(** X19.  After any history the references hold: the learner of every
    paper is registered as a learner and its tutor, if it has one, as a
    tutor; every notification is addressed to a registered user and is
    about a stored paper. *)
Theorem references_hold_after_every_history
    (users : list Profile.t) (history : list Event) :
  let st := run history (fresh_store users) in
  Forall (fun p => registered_as users (Paper.learner_id p) learner
                   /\ forall t, Paper.tutor_id p = Some t ->
                                registered_as users t tutor)
         (papers st)
  /\ Forall (fun n => profile_exists st (Notification.user_id n) = true
                      /\ exists pid, Notification.paper_id n = Some pid
                                     /\ paper_exists st pid = true)
            (notifications st).
Proof.
  destruct (history_keeps_keys_and_references users history) as (_ & _ & H3 & H4).
  now split.
Qed.

(** ** Marks as they are typed *)

Ltac read_digit :=
  match goal with
  | |- context [digit_value 10%Z ?c] =>
      let v := eval vm_compute in (digit_value 10%Z c) in
      change (digit_value 10%Z c) with v; cbv beta iota
  end.

Lemma parse_digits_of_uint_acc (d : Decimal.uint) (acc : positive) :
  parse_digits 10 (NilEmpty.string_of_uint d) (Some (Zpos acc))
  = Some (Zpos (Pos.of_uint_acc d acc)).
Proof.
  revert acc. induction d; intros acc;
    cbn [parse_digits NilEmpty.string_of_uint Pos.of_uint_acc]; [reflexivity|..];
    read_digit; rewrite <- IHd; do 2 f_equal; lia.
Qed.

Lemma parse_digits_of_uint (d : Decimal.uint) :
  parse_digits 10 (NilEmpty.string_of_uint d) (Some 0%Z)
  = Some (Z.of_N (Pos.of_uint d)).
Proof.
  induction d; cbn [parse_digits NilEmpty.string_of_uint Pos.of_uint];
    [reflexivity|..]; read_digit;
    [exact IHd|..]; apply parse_digits_of_uint_acc.
Qed.

(** The digits of a number are neither white space nor sign nor the
    prefix of a hexadecimal literal, and there is at least one. *)
Lemma parseInt_of_uint (d : Decimal.uint) :
  d <> Decimal.Nil ->
  parseInt (NilEmpty.string_of_uint d) = Some (Z.of_N (Pos.of_uint d))
  /\ parseInt ("-" ++ NilEmpty.string_of_uint d)
     = Some (- Z.of_N (Pos.of_uint d))%Z.
Proof.
  intros Hd.
  assert (H : forall sign,
             option_map (Z.mul sign)
               (parse_digits 10 (NilEmpty.string_of_uint d) None)
             = Some (sign * Z.of_N (Pos.of_uint d))%Z).
  { intros sign.
    replace (parse_digits 10 (NilEmpty.string_of_uint d) None)
      with (parse_digits 10 (NilEmpty.string_of_uint d) (Some 0%Z))
      by (destruct d; try contradiction; reflexivity).
    now rewrite parse_digits_of_uint. }
  split.
  - rewrite <- (Z.mul_1_l (Z.of_N _)), <- H.
    destruct d as [|d|d|d|d|d|d|d|d|d|d]; try contradiction; try reflexivity.
    destruct d; reflexivity.
  - replace (- Z.of_N (Pos.of_uint d))%Z with (-1 * Z.of_N (Pos.of_uint d))%Z by lia.
    rewrite <- H.
    destruct d as [|d|d|d|d|d|d|d|d|d|d]; try contradiction; try reflexivity.
    destruct d; reflexivity.
Qed.

(** X20.  Marks typed as the decimal digits of a number, with or without
    a minus sign, are read as that number (for numbers a Number holds
    exactly). *)
Theorem parseInt_reads_decimal_digits (n : N) :
  (n <= 2 ^ 53)%N ->
  parseInt (decimal n) = Some (Z.of_N n)
  /\ parseInt ("-" ++ decimal n) = Some (- Z.of_N n)%Z.
Proof.
  intros _. unfold decimal.
  assert (Hd : N.to_uint n <> Decimal.Nil).
  { destruct n as [|p]; simpl; [discriminate|apply Unsigned.to_uint_nonnil]. }
  destruct (parseInt_of_uint (N.to_uint n) Hd) as [H1 H2].
  rewrite H1, H2.
  change (Pos.of_uint (N.to_uint n)) with (N.of_uint (N.to_uint n)).
  now rewrite DecimalN.Unsigned.of_to.
Qed.

Lemma parseInt_reads_decimal_digits_witness :
  parseInt (decimal 85) = Some 85%Z /\ parseInt ("-" ++ decimal 85) = Some (-85)%Z.
Proof.
  apply (parseInt_reads_decimal_digits 85). vm_compute. discriminate.
Defined.

(** ** Who can do what *)

(** X21.  Learners only add papers: through a history in which every
    actor is registered as a learner, the papers that were stored stay as
    they were, and those that come after them are pending and unassigned. *)
Theorem learners_only_add_pending_papers (history : list Event) (st : Store) :
  Forall (fun e => registered_as (profiles st) (actor e) learner) history ->
  exists added,
    papers (run history st) = (papers st ++ added)%list
    /\ Forall (fun p => Paper.status p = pending /\ Paper.tutor_id p = None) added.
Proof.
  revert st. induction history as [|e history IH]; intros st Hall; simpl.
  - exists []. split; [now rewrite app_nil_r|constructor].
  - inversion Hall as [|e' h' He Hh]; subst.
    assert (Hstep : exists a1,
               papers (step st e) = (papers st ++ a1)%list
               /\ Forall (fun p => Paper.status p = pending
                                   /\ Paper.tutor_id p = None) a1).
    { destruct (step_papers_shape st e)
        as [->|[(p & -> & _ & Hs & Ht & _)|(pid & u & st1 & Hreg & _)]].
      - exists []. split; [now rewrite app_nil_r|constructor].
      - exists [p]. split; [reflexivity|]. now repeat constructor.
      - discriminate (registered_as_one_role _ _ _ _ He Hreg). }
    destruct Hstep as (a1 & E1 & F1).
    destruct (IH (step st e)) as (a2 & E2 & F2).
    { now rewrite step_profiles. }
    exists (a1 ++ a2)%list. split.
    + now rewrite E2, E1, app_assoc.
    + apply Forall_app. now split.
Qed.

Lemma learners_only_add_pending_papers_witness :
  exists added,
    papers (run [upload_quiz] school) = (papers school ++ added)%list
    /\ Forall (fun p => Paper.status p = pending /\ Paper.tutor_id p = None) added.
Proof.
  apply (learners_only_add_pending_papers [upload_quiz] school).
  repeat constructor. exists lea. split; reflexivity.
Defined.

(** X22.  Tutors neither add nor remove papers: through a history in
    which every actor is registered as a tutor, the stored papers are the
    same in number and order, under the same ids and of the same
    learners. *)
Theorem tutors_neither_add_nor_remove_papers (history : list Event) (st : Store) :
  Forall (fun e => registered_as (profiles st) (actor e) tutor) history ->
  map (fun p => (Paper.id p, Paper.learner_id p)) (papers (run history st))
  = map (fun p => (Paper.id p, Paper.learner_id p)) (papers st).
Proof.
  revert st. induction history as [|e history IH]; intros st Hall; simpl.
  - reflexivity.
  - inversion Hall as [|e' h' He Hh]; subst.
    rewrite IH by now rewrite step_profiles.
    destruct (step_papers_shape st e)
      as [->|[(p & _ & _ & _ & _ & Hreg & Hl)|(pid & u & st1 & _ & _ & -> & _)]].
    + reflexivity.
    + rewrite Hl in Hreg. discriminate (registered_as_one_role _ _ _ _ He Hreg).
    + unfold patch_rows. rewrite map_map. apply map_ext. intros p.
      now destruct (update_target st (actor e) pid p).
Qed.

Lemma tutors_neither_add_nor_remove_papers_witness :
  map (fun p => (Paper.id p, Paper.learner_id p))
      (papers (run [tom_accepts; tia_accepts; tia_rejects] school_with_quiz))
  = map (fun p => (Paper.id p, Paper.learner_id p)) (papers school_with_quiz).
Proof.
  apply (tutors_neither_add_nor_remove_papers [tom_accepts; tia_accepts; tia_rejects]
           school_with_quiz).
  repeat constructor.
  - exists tom. split; reflexivity.
  - exists tia. split; reflexivity.
  - exists tia. split; reflexivity.
Defined.

(** X23.  A notification is marked read by its addressee only: through a
    history in which the user [u] does nothing, every notification
    addressed to [u] stays in its place and identical, whatever the other
    users click. *)
Theorem only_the_addressee_reads_a_notification
    (history : list Event) (st : Store) (u : string) :
  Forall (fun e => actor e <> u) history ->
  continues (fun n n' => Notification.user_id n = u -> n' = n)
            (notifications st) (notifications (run history st)).
Proof.
  intros Hothers.
  apply (run_continues _ notifications _ (fun _ => True) (fun e => actor e <> u));
    auto.
  - intros a b c Hab Hbc Ha. specialize (Hab Ha). subst b. auto.
  - clear. intros st e _ He.
    destruct (step_notifications_shape st e)
      as [->|[(n & pid & -> & _)|(nid & ->)]].
    + apply continues_same. auto.
    + apply continues_added. auto.
    + apply continues_related.
      induction (notifications st) as [|n l IH]; simpl; constructor; auto.
      intros Hu. unfold notification_target, notifications_select.
      replace (Notification.user_id n =? actor e) with false;
        [now rewrite andb_false_r|].
      symmetry. apply String.eqb_neq. congruence.
Qed.

Lemma only_the_addressee_reads_a_notification_witness :
  continues (fun n n' => Notification.user_id n = "L1" -> n' = n)
            (notifications school_quiz_accepted)
            (notifications (run [tom_clicks_bell; tia_accepts] school_quiz_accepted)).
Proof.
  apply (only_the_addressee_reads_a_notification [tom_clicks_bell; tia_accepts]
           school_quiz_accepted "L1").
  repeat constructor; discriminate.
Defined.
